(** * Marvell libbt: the controller-configuration sequencer of hardware_mrvl.c

    A shallow embedding of the command builder, the event parser, the two
    completion dispatchers and the two pipeline entry points, followed by
    the properties of the sequencer that the specification lists. *)

From Stdlib Require Import ZArith List Lia.
From stdpp Require Import base option list gmap strings.

Open Scope Z_scope.

(** ** Constants of hardware_mrvl.c *)

Definition HCI_CMD_MARVELL_WRITE_PCM_SETTINGS : Z := 0xFC07.
Definition HCI_CMD_MARVELL_WRITE_PCM_SYNC_SETTINGS : Z := 0xFC28.
Definition HCI_CMD_MARVELL_WRITE_PCM_LINK_SETTINGS : Z := 0xFC29.
Definition HCI_CMD_MARVELL_SET_SCO_DATA_PATH : Z := 0xFC1D.
Definition HCI_CMD_MARVELL_WRITE_BD_ADDRESS : Z := 0xFC22.

Definition WRITE_PCM_SETTINGS_SIZE : Z := 1.
Definition WRITE_PCM_SYNC_SETTINGS_SIZE : Z := 3.
Definition WRITE_PCM_LINK_SETTINGS_SIZE : Z := 2.
Definition SET_SCO_DATA_PATH_SIZE : Z := 1.
Definition WRITE_BD_ADDRESS_SIZE : Z := 8.

Definition HCI_CMD_PREAMBLE_SIZE : Z := 3.
Definition HCI_EVT_CMD_CMPL_OPCODE : nat := 3.

(** The two constants the file takes from bt_hci_bdroid.h, which is not part
    of the sources at hand: they are parameters of the development. *)
Class bt_hci_bdroid := {
  BT_HC_HDR_SIZE : Z;
  MSG_STACK_TO_HC_HCI_CMD : Z
}.

(** ** Machine integers *)

Definition to_u8 (z : Z) : Z := z mod 256.
Definition to_u16 (z : Z) : Z := z mod 65536.

Definition is_u8 (z : Z) : Prop := 0 <= z < 256.
Definition is_u16 (z : Z) : Prop := 0 <= z < 65536.

Arguments to_u8 : simpl never.
Arguments to_u16 : simpl never.

(** ** Data *)

(** A non-null address; a C pointer that may be NULL is an [option ptr]. *)
Definition ptr := nat.

(** [HC_BT_HDR] with the bytes that follow the header in memory
    ([(uint8_t * ) (p_buf + 1)]). *)
Record HC_BT_HDR := mkHdr {
  event : Z;
  len : Z;
  offset : Z;
  layer_specific : Z;
  data : list Z
}.

Record bt_evt_param_t := mkEvt {
  cmd : Z;
  cmd_ret_param : Z
}.

Inductive bt_vendor_op_result_t :=
| BT_VND_OP_RESULT_SUCCESS
| BT_VND_OP_RESULT_FAIL.

(** The completion callback handed to [xmit_cb]. *)
Inductive tINT_CMD_CBACK :=
| cb_config_start   (* hw_mrvl_config_start_cb *)
| cb_sco_config.    (* hw_mrvl_sco_config_cb *)

(** One call through the callback table, with what it returned. *)
Inductive call :=
| Alloc (size : Z) (r : option ptr)
| Dealloc (p : ptr)
| Xmit (opcode : Z) (p : ptr) (buf : HC_BT_HDR) (k : tINT_CMD_CBACK) (r : bool)
| Fwcfg (r : bt_vendor_op_result_t)
| Scocfg (r : bt_vendor_op_result_t).

(** [bt_vendor_callbacks_t]: the callbacks that return a value are functions
    of the calls made so far and of their arguments; [dealloc], [fwcfg_cb]
    and [scocfg_cb] return nothing and only leave a [call] in the trace. *)
Record bt_vendor_callbacks_t := mkCbacks {
  alloc : list call -> Z -> option ptr;
  xmit_cb : list call -> Z -> ptr -> HC_BT_HDR -> tINT_CMD_CBACK -> bool
}.

(** The globals of the file, the memory holding the buffers, and the calls
    made so far (oldest first). *)
Record state := mkState {
  bt_vendor_cbacks : option bt_vendor_callbacks_t;
  vnd_local_bd_addr : list Z;
  write_pcm_settings : list Z;
  write_pcm_sync_settings : list Z;
  write_pcm_link_settings : list Z;
  set_sco_data_path : list Z;
  write_bd_address : list Z;
  heap : gmap nat HC_BT_HDR;
  trace : list call
}.

Definition set_bt_vendor_cbacks (v : option bt_vendor_callbacks_t) (s : state) : state :=
  mkState v (vnd_local_bd_addr s) (write_pcm_settings s)
    (write_pcm_sync_settings s) (write_pcm_link_settings s)
    (set_sco_data_path s) (write_bd_address s) (heap s) (trace s).

Definition set_vnd_local_bd_addr (v : list Z) (s : state) : state :=
  mkState (bt_vendor_cbacks s) v (write_pcm_settings s)
    (write_pcm_sync_settings s) (write_pcm_link_settings s)
    (set_sco_data_path s) (write_bd_address s) (heap s) (trace s).

Definition set_write_bd_address (v : list Z) (s : state) : state :=
  mkState (bt_vendor_cbacks s) (vnd_local_bd_addr s) (write_pcm_settings s)
    (write_pcm_sync_settings s) (write_pcm_link_settings s)
    (set_sco_data_path s) v (heap s) (trace s).

Definition set_heap (v : gmap nat HC_BT_HDR) (s : state) : state :=
  mkState (bt_vendor_cbacks s) (vnd_local_bd_addr s) (write_pcm_settings s)
    (write_pcm_sync_settings s) (write_pcm_link_settings s)
    (set_sco_data_path s) (write_bd_address s) v (trace s).

Definition log (c : call) (s : state) : state :=
  mkState (bt_vendor_cbacks s) (vnd_local_bd_addr s) (write_pcm_settings s)
    (write_pcm_sync_settings s) (write_pcm_link_settings s)
    (set_sco_data_path s) (write_bd_address s) (heap s) (trace s ++ [c]).

(** The static initialisers; [bt_vendor_cbacks] and [vnd_local_bd_addr] are
    defined in another file and start with whatever that file gives them. *)
Definition initial_state (cbacks : option bt_vendor_callbacks_t)
    (bd_addr : list Z) : state :=
  {| bt_vendor_cbacks := cbacks;
     vnd_local_bd_addr := bd_addr;
     write_pcm_settings := [0x02];
     write_pcm_sync_settings := [0x03; 0x00; 0x03];
     write_pcm_link_settings := [0x03; 0x00];
     set_sco_data_path := [0x01];
     write_bd_address := [0xFE; 0x06; 0x00; 0x00; 0x00; 0x00; 0x00; 0x00];
     heap := ∅;
     trace := [] |}.

(** ** The monad of the embedding

    A computation reads and updates the [state]; [None] is abnormal
    termination: a failed [assert], a null dereference or a read outside an
    object. *)

Definition M (A : Type) : Type := state -> option (A * state).

Definition ret {A} (a : A) : M A := fun s => Some (a, s).

Definition bind {A B} (m : M A) (k : A -> M B) : M B :=
  fun s => match m s with
           | Some (a, s') => k a s'
           | None => None
           end.

Definition crash {A} : M A := fun _ => None.

Notation "x <~ m ;; k" := (bind m (fun x => k))
  (at level 100, m at next level, right associativity).
Notation "m ;;; k" := (bind m (fun _ => k))
  (at level 100, right associativity).

Definition get {A} (f : state -> A) : M A := fun s => Some (f s, s).
Definition modify (f : state -> state) : M unit := fun s => Some (tt, f s).

Definition lift {A} (o : option A) : M A :=
  match o with Some a => ret a | None => crash end.

Definition assert (b : bool) : M unit := if b then ret tt else crash.

(** [*p] for a pointer to a buffer. *)
Definition deref (p : option ptr) : M HC_BT_HDR :=
  match p with
  | Some q => h <~ get heap ;; lift (h !! q)
  | None => crash
  end.

(** ** Calls through [bt_vendor_cbacks] (each dereferences the table) *)

Definition call_alloc (size : Z) : M (option ptr) :=
  cb <~ get bt_vendor_cbacks ;;
  t <~ lift cb ;;
  tr <~ get trace ;;
  let r := alloc t tr size in
  modify (log (Alloc size r)) ;;;
  ret r.

(** The deallocator gives the block back: it is no longer in memory. *)
Definition call_dealloc (p : ptr) : M unit :=
  cb <~ get bt_vendor_cbacks ;;
  _ <~ lift cb ;;
  modify (log (Dealloc p)) ;;;
  h <~ get heap ;;
  modify (set_heap (delete p h)).

Definition call_xmit_cb (opcode : Z) (p : ptr) (k : tINT_CMD_CBACK) : M bool :=
  cb <~ get bt_vendor_cbacks ;;
  t <~ lift cb ;;
  buf <~ deref (Some p) ;;
  tr <~ get trace ;;
  let r := xmit_cb t tr opcode p buf k in
  modify (log (Xmit opcode p buf k r)) ;;;
  ret r.

Definition call_fwcfg_cb (r : bt_vendor_op_result_t) : M unit :=
  cb <~ get bt_vendor_cbacks ;;
  _ <~ lift cb ;;
  modify (log (Fwcfg r)).

Definition call_scocfg_cb (r : bt_vendor_op_result_t) : M unit :=
  cb <~ get bt_vendor_cbacks ;;
  _ <~ lift cb ;;
  modify (log (Scocfg r)).

Definition non_null {A} (o : option A) : bool :=
  match o with Some _ => true | None => false end.

(** ** Stream macros and memory helpers *)

(** [STREAM_TO_UINT16(u16, p)]: [p] is an offset into [mem]. *)
Definition STREAM_TO_UINT16 (mem : list Z) (p : nat) : option (Z * nat) :=
  match mem !! p, mem !! S p with
  | Some b0, Some b1 =>
      Some (to_u16 (to_u16 b0 + Z.shiftl (to_u16 b1) 8), (p + 2)%nat)
  | _, _ => None
  end.

(** [UINT16_TO_STREAM(p, u16)]: [p] is a write cursor at the start of a fresh
    block, represented by the bytes written so far. *)
Definition UINT16_TO_STREAM (p : list Z) (u16 : Z) : list Z :=
  p ++ [to_u8 u16; to_u8 (Z.shiftr u16 8)].

(** The [n] bytes that [memcpy] reads from [src]. *)
Definition mem_read (src : list Z) (n : nat) : option (list Z) :=
  if (n <=? length src)%nat then Some (take n src) else None.

Arguments mem_read : simpl never.

(** [*params = v] for the pointer [params = arr + i]. *)
Definition store_byte (arr : list Z) (i : nat) (v : Z) : option (list Z) :=
  if (i <? length arr)%nat then Some (<[i:=v]> arr) else None.

(** ** Local functions *)

(** [params] points into the array [arr] at offset [params]; the result is
    the array after the six stores. Both pointers are addresses of globals,
    so [assert(params && addr)] holds. *)
Definition populate_bd_addr_params (arr : list Z) (params : nat)
    (addr : list Z) : option (list Z) :=
  a5 ← addr !! 5%nat; arr ← store_byte arr params a5;
  let params := S params in
  a4 ← addr !! 4%nat; arr ← store_byte arr params a4;
  let params := S params in
  a3 ← addr !! 3%nat; arr ← store_byte arr params a3;
  let params := S params in
  a2 ← addr !! 2%nat; arr ← store_byte arr params a2;
  let params := S params in
  a1 ← addr !! 1%nat; arr ← store_byte arr params a1;
  let params := S params in
  a0 ← addr !! 0%nat; store_byte arr params a0.

Section Program.
Context `{bt_hci_bdroid}.

(** [payload] is the array a non-null pointer points to ([assert(payload)]
    holds at the four call sites); the block that [alloc] returns is filled
    field by field and byte by byte, which leaves the record stored here. *)
Definition build_cmd_buf (cmd pl_len : Z) (payload : list Z) : M (option ptr) :=
  let cmd_len := to_u16 (HCI_CMD_PREAMBLE_SIZE + pl_len) in
  cb <~ get bt_vendor_cbacks ;;
  p_buf <~ (if non_null cb
            then call_alloc (BT_HC_HDR_SIZE + cmd_len)
            else ret None) ;;
  match p_buf with
  | None => ret None
  | Some b =>
      let p := [] in
      (* opcode *)
      let p := UINT16_TO_STREAM p cmd in
      (* length of payload *)
      let p := p ++ [pl_len] in
      (* payload *)
      bytes <~ lift (mem_read payload (Z.to_nat pl_len)) ;;
      let p := p ++ bytes in
      h <~ get heap ;;
      modify (set_heap (<[b := {| event := MSG_STACK_TO_HC_HCI_CMD;
                                  len := cmd_len;
                                  offset := 0;
                                  layer_specific := 0;
                                  data := p |}]> h)) ;;;
      ret (Some b)
  end.

(** [evt_params] is passed by address: the result is the record after the
    two stores. A null or dangling [p_evt_buf] and a read past the end of
    the event are abnormal termination. *)
Definition parse_evt_buf (p_evt_buf : option ptr)
    (evt_params : bt_evt_param_t) : M bt_evt_param_t :=
  buf <~ deref p_evt_buf ;;
  let p := HCI_EVT_CMD_CMPL_OPCODE in
  (* opcode *)
  r <~ lift (STREAM_TO_UINT16 (data buf) p) ;;
  let evt_params := mkEvt (fst r) (cmd_ret_param evt_params) in
  let p := snd r in
  (* command return parameter *)
  b <~ lift (data buf !! p) ;;
  ret (mkEvt (cmd evt_params) b).

Definition hw_mrvl_config_start_cb (p_mem : option ptr) : M unit :=
  assert (non_null p_mem) ;;;
  p_evt_buf <~ lift p_mem ;;
  let evt_params := mkEvt 0 0 in
  evt_params <~ parse_evt_buf (Some p_evt_buf) evt_params ;;
  (* free the buffer *)
  cb <~ get bt_vendor_cbacks ;;
  (if non_null cb then call_dealloc p_evt_buf else ret tt) ;;;
  if cmd evt_params =? HCI_CMD_MARVELL_WRITE_BD_ADDRESS then
    (* fw config succeeds *)
    cb <~ get bt_vendor_cbacks ;;
    if non_null cb then call_fwcfg_cb BT_VND_OP_RESULT_SUCCESS else ret tt
  else
    cb <~ get bt_vendor_cbacks ;;
    if non_null cb then call_fwcfg_cb BT_VND_OP_RESULT_FAIL else ret tt.

Definition hw_mrvl_sco_config_cb (p_mem : option ptr) : M unit :=
  cb <~ get bt_vendor_cbacks ;;
  assert (non_null cb && non_null p_mem) ;;;
  p_evt_buf <~ lift p_mem ;;
  let evt_params := mkEvt 0 0 in
  evt_params <~ parse_evt_buf (Some p_evt_buf) evt_params ;;
  (* free the buffer *)
  call_dealloc p_evt_buf ;;;
  (* the switch: [None] is its [return], [Some (cmd, p_buf)] falls through *)
  sw <~ (if cmd evt_params =? HCI_CMD_MARVELL_WRITE_PCM_SETTINGS then
           let cmd := HCI_CMD_MARVELL_WRITE_PCM_SYNC_SETTINGS in
           payload <~ get write_pcm_sync_settings ;;
           p_buf <~ build_cmd_buf cmd WRITE_PCM_SYNC_SETTINGS_SIZE payload ;;
           ret (Some (cmd, p_buf))
         else if cmd evt_params =? HCI_CMD_MARVELL_WRITE_PCM_SYNC_SETTINGS then
           let cmd := HCI_CMD_MARVELL_WRITE_PCM_LINK_SETTINGS in
           payload <~ get write_pcm_link_settings ;;
           p_buf <~ build_cmd_buf cmd WRITE_PCM_LINK_SETTINGS_SIZE payload ;;
           ret (Some (cmd, p_buf))
         else if cmd evt_params =? HCI_CMD_MARVELL_WRITE_PCM_LINK_SETTINGS then
           let cmd := HCI_CMD_MARVELL_SET_SCO_DATA_PATH in
           payload <~ get set_sco_data_path ;;
           p_buf <~ build_cmd_buf cmd SET_SCO_DATA_PATH_SIZE payload ;;
           ret (Some (cmd, p_buf))
         else if cmd evt_params =? HCI_CMD_MARVELL_SET_SCO_DATA_PATH then
           (* sco config succeeds *)
           cb <~ get bt_vendor_cbacks ;;
           (if non_null cb then call_scocfg_cb BT_VND_OP_RESULT_SUCCESS
            else ret tt) ;;;
           ret None
         else ret (Some (0, None))) ;;
  match sw with
  | None => ret tt
  | Some (cmd, p_buf) =>
      match p_buf with
      | Some b =>
          sent <~ call_xmit_cb cmd b cb_sco_config ;;
          if sent then ret tt
          else call_dealloc b ;;; call_scocfg_cb BT_VND_OP_RESULT_FAIL
      | None => call_scocfg_cb BT_VND_OP_RESULT_FAIL
      end
  end.

(** ** Global functions *)

Definition hw_mrvl_config_start : M unit :=
  cb <~ get bt_vendor_cbacks ;;
  assert (non_null cb) ;;;
  (* Start with HCI_CMD_MARVELL_WRITE_BD_ADDRESS *)
  params <~ get write_bd_address ;;
  addr <~ get vnd_local_bd_addr ;;
  params <~ lift (populate_bd_addr_params params 2 addr) ;;
  modify (set_write_bd_address params) ;;;
  let cmd := HCI_CMD_MARVELL_WRITE_BD_ADDRESS in
  payload <~ get write_bd_address ;;
  p_buf <~ build_cmd_buf cmd WRITE_BD_ADDRESS_SIZE payload ;;
  match p_buf with
  | Some b =>
      sent <~ call_xmit_cb cmd b cb_config_start ;;
      if sent then ret tt
      else call_dealloc b ;;; call_fwcfg_cb BT_VND_OP_RESULT_FAIL
  | None => call_fwcfg_cb BT_VND_OP_RESULT_FAIL
  end.

Definition hw_mrvl_sco_config : M unit :=
  cb <~ get bt_vendor_cbacks ;;
  assert (non_null cb) ;;;
  (* Start with HCI_CMD_MARVELL_WRITE_PCM_SETTINGS *)
  let cmd := HCI_CMD_MARVELL_WRITE_PCM_SETTINGS in
  payload <~ get write_pcm_settings ;;
  p_buf <~ build_cmd_buf cmd WRITE_PCM_SETTINGS_SIZE payload ;;
  match p_buf with
  | Some b =>
      sent <~ call_xmit_cb cmd b cb_sco_config ;;
      if sent then ret tt
      else call_dealloc b ;;; call_scocfg_cb BT_VND_OP_RESULT_FAIL
  | None => call_scocfg_cb BT_VND_OP_RESULT_FAIL
  end.

Definition bt_vnd_mrvl_if_init (p_cb : option bt_vendor_callbacks_t)
    (local_bdaddr : list Z) : M Z :=
  modify (set_bt_vendor_cbacks p_cb) ;;;
  dst <~ get vnd_local_bd_addr ;;
  bytes <~ lift (mem_read local_bdaddr 6) ;;
  modify (set_vnd_local_bd_addr (bytes ++ drop 6 dst)) ;;;
  ret 0.

(** ** The callers of the sequencer *)

(** The four functions that a caller or the transport can invoke. *)
Inductive entry :=
| config_start
| sco_config
| config_start_cb (p_mem : option ptr)
| sco_config_cb (p_mem : option ptr).

Definition exec (e : entry) : M unit :=
  match e with
  | config_start => hw_mrvl_config_start
  | sco_config => hw_mrvl_sco_config
  | config_start_cb p_mem => hw_mrvl_config_start_cb p_mem
  | sco_config_cb p_mem => hw_mrvl_sco_config_cb p_mem
  end.

(** The completion callback as the transport invokes it. *)
Definition dispatch (k : tINT_CMD_CBACK) (p_mem : option ptr) : M unit :=
  match k with
  | cb_config_start => hw_mrvl_config_start_cb p_mem
  | cb_sco_config => hw_mrvl_sco_config_cb p_mem
  end.

(** The transport puts an event buffer in memory at [p]. *)
Definition receive (p : ptr) (buf : HC_BT_HDR) : M unit :=
  h <~ get heap ;;
  modify (set_heap (<[p := buf]> h)).

(** The command that waits for its completion event: the last call made is
    a send that the transport accepted. *)
Definition outstanding (tr : list call) : option (tINT_CMD_CBACK * Z) :=
  match last tr with
  | Some (Xmit opcode _ _ k true) => Some (k, opcode)
  | _ => None
  end.

(** The transport delivers completion events one after the other, each to
    the callback of the outstanding command, and stops when none is
    outstanding; the result is the number of events delivered. *)
Fixpoint complete (evts : list (ptr * HC_BT_HDR)) : M nat :=
  match evts with
  | [] => ret 0%nat
  | (p, buf) :: rest =>
      tr <~ get trace ;;
      match outstanding tr with
      | Some (k, _) =>
          receive p buf ;;;
          dispatch k (Some p) ;;;
          n <~ complete rest ;;
          ret (S n)
      | None => ret 0%nat
      end
  end.

Definition sco_pipeline (evts : list (ptr * HC_BT_HDR)) : M nat :=
  hw_mrvl_sco_config ;;; complete evts.

(** The states the program can be in. *)
Inductive reachable : state -> Prop :=
| reach_start cbacks bd_addr :
    length bd_addr = 6%nat -> reachable (initial_state cbacks bd_addr)
| reach_init s p_cb local_bdaddr r s' :
    reachable s ->
    bt_vnd_mrvl_if_init p_cb local_bdaddr s = Some (r, s') ->
    reachable s'
| reach_exec s e s' :
    reachable s -> exec e s = Some (tt, s') -> reachable s'
| reach_receive s p buf s' :
    reachable s -> receive p buf s = Some (tt, s') -> reachable s'.

End Program.

(** ** Observations on a trace *)

Definition xmit_calls (tr : list call) : list (Z * bool) :=
  omap (fun c => match c with Xmit opcode _ _ _ r => Some (opcode, r) | _ => None end) tr.

Definition fwcfg_calls (tr : list call) : list bt_vendor_op_result_t :=
  omap (fun c => match c with Fwcfg r => Some r | _ => None end) tr.

Definition scocfg_calls (tr : list call) : list bt_vendor_op_result_t :=
  omap (fun c => match c with Scocfg r => Some r | _ => None end) tr.

(** The result callbacks invoked, each with the pipeline it reports for. *)
Definition result_calls (tr : list call)
    : list (tINT_CMD_CBACK * bt_vendor_op_result_t) :=
  omap (fun c => match c with
                 | Fwcfg r => Some (cb_config_start, r)
                 | Scocfg r => Some (cb_sco_config, r)
                 | _ => None
                 end) tr.

(** How often the block that is at [p] when [tr] starts is deallocated in
    [tr]; once the allocator hands [p] out again, [p] names another block. *)
Fixpoint frees_of (p : ptr) (tr : list call) : nat :=
  match tr with
  | [] => 0
  | Dealloc q :: tr' => (if decide (q = p) then 1 else 0) + frees_of p tr'
  | Alloc _ (Some q) :: tr' => if decide (q = p) then 0 else frees_of p tr'
  | _ :: tr' => frees_of p tr'
  end%nat.

(** The pipeline an entry belongs to. *)
Definition pipeline_of (e : entry) : tINT_CMD_CBACK :=
  match e with
  | config_start | config_start_cb _ => cb_config_start
  | sco_config | sco_config_cb _ => cb_sco_config
  end.

(** The calls that running [m] from [s] adds to the trace. *)
Definition new_calls {A} (m : M A) (s : state) : option (list call) :=
  option_map (fun r => drop (length (trace s)) (trace (snd r))) (m s).

(** ** Event buffers, as the specification describes them *)

(** A well-formed event buffer has the six bytes the parser reads. *)
Definition wf_evt (buf : HC_BT_HDR) : Prop :=
  (6 <= length (data buf))%nat /\ Forall is_u8 (data buf).

(** The opcode of the completed command: little-endian at offset 3. *)
Definition evt_opcode (buf : HC_BT_HDR) : Z :=
  nth 3 (data buf) 0 + 256 * nth 4 (data buf) 0.

(** The status byte: at offset 5. *)
Definition evt_status (buf : HC_BT_HDR) : Z := nth 5 (data buf) 0.

(** ** Definitions used to state and prove the properties *)

Section Analysis.
Context `{bt_hci_bdroid}.

(** The result callback of the pipeline whose completion callback is [k]. *)
Definition report_cb (k : tINT_CMD_CBACK) (r : bt_vendor_op_result_t) : M unit :=
  match k with
  | cb_config_start => call_fwcfg_cb r
  | cb_sco_config => call_scocfg_cb r
  end.

(** The tail that the three sending functions each spell out: send the
    buffer that was built, and abort the pipeline when there is none or when
    the transport rejects it. *)
Definition send_or_abort (k : tINT_CMD_CBACK) (cmd : Z) (p_buf : option ptr)
    : M unit :=
  match p_buf with
  | Some b =>
      sent <~ call_xmit_cb cmd b k ;;
      if sent then ret tt
      else call_dealloc b ;;; report_cb k BT_VND_OP_RESULT_FAIL
  | None => report_cb k BT_VND_OP_RESULT_FAIL
  end.

(** The call that [report_cb] leaves in the trace. *)
Definition report (k : tINT_CMD_CBACK) (r : bt_vendor_op_result_t) : call :=
  match k with
  | cb_config_start => Fwcfg r
  | cb_sco_config => Scocfg r
  end.

(** The buffer that [build_cmd_buf] fills. *)
Definition cmd_buf (cmd pl_len : Z) (payload : list Z) : HC_BT_HDR :=
  {| event := MSG_STACK_TO_HC_HCI_CMD;
     len := to_u16 (HCI_CMD_PREAMBLE_SIZE + pl_len);
     offset := 0;
     layer_specific := 0;
     data := to_u8 cmd :: to_u8 (Z.shiftr cmd 8) :: pl_len :: payload |}.

(** The calls that building and sending one command makes, given the table
    [t] and the calls [tr] made before. *)
Definition send_calls (t : bt_vendor_callbacks_t) (tr : list call)
    (k : tINT_CMD_CBACK) (cmd pl_len : Z) (payload : list Z) : list call :=
  let size := BT_HC_HDR_SIZE + to_u16 (HCI_CMD_PREAMBLE_SIZE + pl_len) in
  match alloc t tr size with
  | None => [Alloc size None; report k BT_VND_OP_RESULT_FAIL]
  | Some b =>
      let buf := cmd_buf cmd pl_len payload in
      if xmit_cb t (tr ++ [Alloc size (Some b)]) cmd b buf k
      then [Alloc size (Some b); Xmit cmd b buf k true]
      else [Alloc size (Some b); Xmit cmd b buf k false; Dealloc b;
            report k BT_VND_OP_RESULT_FAIL]
  end.

(** The globals of the file other than memory and trace. *)
Definition same_globals (s s' : state) : Prop :=
  bt_vendor_cbacks s' = bt_vendor_cbacks s /\
  vnd_local_bd_addr s' = vnd_local_bd_addr s /\
  write_pcm_settings s' = write_pcm_settings s /\
  write_pcm_sync_settings s' = write_pcm_sync_settings s /\
  write_pcm_link_settings s' = write_pcm_link_settings s /\
  set_sco_data_path s' = set_sco_data_path s /\
  write_bd_address s' = write_bd_address s.

Definition wf_state (s : state) : Prop :=
  length (vnd_local_bd_addr s) = 6%nat /\
  write_pcm_settings s = [0x02] /\
  write_pcm_sync_settings s = [0x03; 0x00; 0x03] /\
  write_pcm_link_settings s = [0x03; 0x00] /\
  set_sco_data_path s = [0x01] /\
  exists a, write_bd_address s = 0xFE :: 0x06 :: a /\ length a = 6%nat.

Definition next_calls (t : bt_vendor_callbacks_t) (tr : list call)
    (opcode : Z) : list call :=
  if opcode =? HCI_CMD_MARVELL_WRITE_PCM_SETTINGS then
    send_calls t tr cb_sco_config HCI_CMD_MARVELL_WRITE_PCM_SYNC_SETTINGS
      WRITE_PCM_SYNC_SETTINGS_SIZE [0x03; 0x00; 0x03]
  else if opcode =? HCI_CMD_MARVELL_WRITE_PCM_SYNC_SETTINGS then
    send_calls t tr cb_sco_config HCI_CMD_MARVELL_WRITE_PCM_LINK_SETTINGS
      WRITE_PCM_LINK_SETTINGS_SIZE [0x03; 0x00]
  else if opcode =? HCI_CMD_MARVELL_WRITE_PCM_LINK_SETTINGS then
    send_calls t tr cb_sco_config HCI_CMD_MARVELL_SET_SCO_DATA_PATH
      SET_SCO_DATA_PATH_SIZE [0x01]
  else if opcode =? HCI_CMD_MARVELL_SET_SCO_DATA_PATH then
    [Scocfg BT_VND_OP_RESULT_SUCCESS]
  else [Scocfg BT_VND_OP_RESULT_FAIL].

(** The part of [hw_mrvl_sco_config_cb] after the event buffer is freed. *)
Definition sco_continue (evt_params : bt_evt_param_t) : M unit :=
  sw <~ (if cmd evt_params =? HCI_CMD_MARVELL_WRITE_PCM_SETTINGS then
           let cmd := HCI_CMD_MARVELL_WRITE_PCM_SYNC_SETTINGS in
           payload <~ get write_pcm_sync_settings ;;
           p_buf <~ build_cmd_buf cmd WRITE_PCM_SYNC_SETTINGS_SIZE payload ;;
           ret (Some (cmd, p_buf))
         else if cmd evt_params =? HCI_CMD_MARVELL_WRITE_PCM_SYNC_SETTINGS then
           let cmd := HCI_CMD_MARVELL_WRITE_PCM_LINK_SETTINGS in
           payload <~ get write_pcm_link_settings ;;
           p_buf <~ build_cmd_buf cmd WRITE_PCM_LINK_SETTINGS_SIZE payload ;;
           ret (Some (cmd, p_buf))
         else if cmd evt_params =? HCI_CMD_MARVELL_WRITE_PCM_LINK_SETTINGS then
           let cmd := HCI_CMD_MARVELL_SET_SCO_DATA_PATH in
           payload <~ get set_sco_data_path ;;
           p_buf <~ build_cmd_buf cmd SET_SCO_DATA_PATH_SIZE payload ;;
           ret (Some (cmd, p_buf))
         else if cmd evt_params =? HCI_CMD_MARVELL_SET_SCO_DATA_PATH then
           cb <~ get bt_vendor_cbacks ;;
           (if non_null cb then call_scocfg_cb BT_VND_OP_RESULT_SUCCESS
            else ret tt) ;;;
           ret None
         else ret (Some (0, None))) ;;
  match sw with
  | None => ret tt
  | Some (cmd, p_buf) => send_or_abort cb_sco_config cmd p_buf
  end.

Definition fw_cb_calls (cb : option bt_vendor_callbacks_t) (p : ptr)
    (opcode : Z) : list call :=
  match cb with
  | None => []
  | Some _ =>
      [Dealloc p;
       Fwcfg (if opcode =? HCI_CMD_MARVELL_WRITE_BD_ADDRESS
              then BT_VND_OP_RESULT_SUCCESS else BT_VND_OP_RESULT_FAIL)]
  end.

Definition preserves {A} (m : M A) : Prop :=
  forall s a s', m s = Some (a, s') -> same_globals s s'.

(** The calls one step of the pipeline of callback [k] can make once the
    event buffer, if any, is freed. *)
Inductive outcome (k : tINT_CMD_CBACK) : list call -> Prop :=
| out_sent size p opcode buf :
    outcome k [Alloc size (Some p); Xmit opcode p buf k true]
| out_rejected size p opcode buf :
    outcome k [Alloc size (Some p); Xmit opcode p buf k false; Dealloc p;
               report k BT_VND_OP_RESULT_FAIL]
| out_no_buffer size :
    outcome k [Alloc size None; report k BT_VND_OP_RESULT_FAIL]
| out_reported r :
    outcome k [report k r].

(** What an entry needs in order to run: a dispatcher is handed an event
    buffer that is in memory and well formed. *)
Definition ready (e : entry) (s : state) : Prop :=
  match e with
  | config_start | sco_config => True
  | config_start_cb p_mem | sco_config_cb p_mem =>
      exists p buf, p_mem = Some p /\ heap s !! p = Some buf /\ wf_evt buf
  end.

(** The calls an entry makes before the step proper: a dispatcher frees its
    event buffer. *)
Definition prologue (e : entry) : list call :=
  match e with
  | config_start | sco_config => []
  | config_start_cb (Some p) | sco_config_cb (Some p) => [Dealloc p]
  | _ => []
  end.

(** Collaborators that never refuse: the allocator always returns a buffer
    and the transport accepts every command. *)
Definition never_refuses (t : bt_vendor_callbacks_t) : Prop :=
  (forall tr size, alloc t tr size <> None) /\
  (forall tr opcode p buf k, xmit_cb t tr opcode p buf k = true).

(** The events [evts], delivered while a command of the SCO pipeline is
    outstanding: if all of them are delivered, the commands [sends] went out
    and the pipeline reported SUCCESS, once; and all of them are delivered
    when the collaborators never refuse. *)
Definition finishes (evts : list (ptr * HC_BT_HDR)) (sends : list (Z * bool))
    : Prop :=
  forall s t op0,
    wf_state s ->
    bt_vendor_cbacks s = Some t ->
    outstanding (trace s) = Some (cb_sco_config, op0) ->
    exists n s' calls,
      complete evts s = Some (n, s') /\
      trace s' = trace s ++ calls /\
      (n = length evts ->
       xmit_calls calls = sends /\
       scocfg_calls calls = [BT_VND_OP_RESULT_SUCCESS] /\
       fwcfg_calls calls = []) /\
      (never_refuses t -> n = length evts).

(** *** Three claims of the specification, as it words them *)

(** A completion event whose opcode is not the one of the outstanding
    command makes the dispatcher report failure once and send nothing. *)
Definition unexpected_opcode_fails : Prop :=
  forall s t k expected p buf,
    reachable s ->
    bt_vendor_cbacks s = Some t ->
    outstanding (trace s) = Some (k, expected) ->
    wf_evt buf ->
    evt_opcode buf <> expected ->
    exists s' calls,
      (receive p buf ;;; dispatch k (Some p)) s = Some (tt, s') /\
      trace s' = trace s ++ calls /\
      result_calls calls = [(k, BT_VND_OP_RESULT_FAIL)] /\
      xmit_calls calls = [].

(** A dispatcher that is handed the completion event of the outstanding
    command and returns has deallocated the event buffer exactly once. *)
Definition event_buffer_always_freed : Prop :=
  forall s k opcode p buf s',
    reachable s ->
    outstanding (trace s) = Some (k, opcode) ->
    heap s !! p = Some buf ->
    wf_evt buf ->
    dispatch k (Some p) s = Some (tt, s') ->
    exists calls,
      trace s' = trace s ++ calls /\ frees_of p calls = 1%nat.

(** An invocation that returns has made an accepted send or has invoked the
    result callback of its pipeline once. *)
Definition every_invocation_reports : Prop :=
  forall s e s',
    reachable s ->
    exec e s = Some (tt, s') ->
    exists calls,
      trace s' = trace s ++ calls /\
      ((exists opcode, (opcode, true) ∈ xmit_calls calls) \/
       (exists r, result_calls calls = [(pipeline_of e, r)])).

End Analysis.

(** ** A concrete platform and concrete collaborators, for examples *)

(** The values of Android's bt_hci_bdroid.h. *)
Definition bdroid : bt_hci_bdroid :=
  {| BT_HC_HDR_SIZE := 8; MSG_STACK_TO_HC_HCI_CMD := 0x2000 |}.

(** An allocator that hands out address 100 + number of calls so far, and a
    transport that accepts every command. *)
Definition willing : bt_vendor_callbacks_t :=
  {| alloc := fun tr _ => Some (100 + length tr)%nat;
     xmit_cb := fun _ _ _ _ _ => true |}.

(** A transport that rejects every command. *)
Definition rejecting : bt_vendor_callbacks_t :=
  {| alloc := fun tr _ => Some (100 + length tr)%nat;
     xmit_cb := fun _ _ _ _ _ => false |}.

(** An allocator that is out of memory. *)
Definition exhausted : bt_vendor_callbacks_t :=
  {| alloc := fun _ _ => None;
     xmit_cb := fun _ _ _ _ _ => true |}.

(** A command-complete event for [opcode] with status [status]. *)
Definition cmd_cmpl (opcode status : Z) : HC_BT_HDR :=
  {| event := 0x1000; len := 6; offset := 0; layer_specific := 0;
     data := [0x0E; 0x04; 0x01; to_u8 opcode; to_u8 (Z.shiftr opcode 8); status] |}.

(** The program after its start, with the willing collaborators, with the
    rejecting transport, and with no callback table. *)
Definition booted : state :=
  initial_state (Some willing) [0x11; 0x22; 0x33; 0x44; 0x55; 0x66].

Definition booted_rejecting : state :=
  initial_state (Some rejecting) [0x11; 0x22; 0x33; 0x44; 0x55; 0x66].

Definition unregistered : state :=
  initial_state None [0x11; 0x22; 0x33; 0x44; 0x55; 0x66].

(** A state with the event buffer [buf] in memory at address 7. *)
Definition holding (buf : HC_BT_HDR) (s : state) : state :=
  set_heap (<[7%nat := buf]> (heap s)) s.

(** [booted] after [hw_mrvl_sco_config]: write-PCM-settings is outstanding. *)
Definition awaiting_pcm_settings : state :=
  match @hw_mrvl_sco_config bdroid booted with
  | Some (_, s) => s
  | None => booted
  end.

(** [booted] after [hw_mrvl_config_start] and a second
    [bt_vnd_mrvl_if_init] that registers no table: write-device-address is
    outstanding and [bt_vendor_cbacks] is null. *)
Definition orphaned : state :=
  match (@hw_mrvl_config_start bdroid ;;;
         bt_vnd_mrvl_if_init None [0x11; 0x22; 0x33; 0x44; 0x55; 0x66]) booted with
  | Some (_, s) => s
  | None => booted
  end.

(** The rows of a dispatcher's table: the opcodes its switch names. *)
Definition in_table (k : tINT_CMD_CBACK) (opcode : Z) : bool :=
  match k with
  | cb_config_start => opcode =? HCI_CMD_MARVELL_WRITE_BD_ADDRESS
  | cb_sco_config =>
      (opcode =? HCI_CMD_MARVELL_WRITE_PCM_SETTINGS)
      || (opcode =? HCI_CMD_MARVELL_WRITE_PCM_SYNC_SETTINGS)
      || (opcode =? HCI_CMD_MARVELL_WRITE_PCM_LINK_SETTINGS)
      || (opcode =? HCI_CMD_MARVELL_SET_SCO_DATA_PATH)
  end.

(** ** The rest of hardware_mrvl.c *)

(** [cmd_to_str], used for the log lines. *)
Definition cmd_to_str (cmd : Z) : string :=
  if cmd =? HCI_CMD_MARVELL_WRITE_PCM_SETTINGS then "write_pcm_settings"
  else if cmd =? HCI_CMD_MARVELL_WRITE_PCM_SYNC_SETTINGS
  then "write_pcm_sync_settings"
  else if cmd =? HCI_CMD_MARVELL_WRITE_PCM_LINK_SETTINGS
  then "write_pcm_link_settings"
  else if cmd =? HCI_CMD_MARVELL_SET_SCO_DATA_PATH then "set_sco_data_path"
  else if cmd =? HCI_CMD_MARVELL_WRITE_BD_ADDRESS then "write_bd_address"
  else "unknown command".

(** The opcodes that the switch of [bt_vnd_mrvl_if_op] names; any other
    value of the enumeration takes its [default]. *)
Inductive bt_vendor_opcode_t :=
| BT_VND_OP_POWER_CTRL
| BT_VND_OP_FW_CFG
| BT_VND_OP_SCO_CFG
| BT_VND_OP_USERIAL_OPEN
| BT_VND_OP_USERIAL_CLOSE
| BT_VND_OP_GET_LPM_IDLE_TIMEOUT
| BT_VND_OP_LPM_SET_MODE
| BT_VND_OP_LPM_WAKE_SET_STATE
| BT_VND_OP_other (n : Z).

(** The two power states of bt_vendor_lib.h, which is not part of the
    sources at hand. *)
Class bt_vendor_lib := {
  BT_VND_PWR_OFF : Z;
  BT_VND_PWR_ON : Z
}.

Definition mchar_port : string := "/dev/mbtchar0".

(** A call that [bt_vnd_mrvl_if_op] makes outside the sequencer, with what
    it returned where the code looks at it. *)
Inductive sys_call :=
| Sys_open (path : string) (r : Z)
| Sys_usleep (usec : Z)
| Sys_ioctl_release (fd : Z)
| Sys_close (fd : Z) (r : Z)
| Bluetooth_enable
| Bluetooth_disable
| Lpm_cb (status : Z).

(** The operating system: what [open] and [close] return, given the calls
    made so far. *)
Record os := mkOs {
  os_open : list sys_call -> string -> Z;
  os_close : list sys_call -> Z -> Z
}.

(** The sequencer's state, the descriptor [mchar_fd] and the calls made
    outside the sequencer (oldest first). *)
Record vendor := mkVendor {
  core : state;
  mchar_fd : Z;
  sys_trace : list sys_call
}.

Definition set_core (c : state) (v : vendor) : vendor :=
  mkVendor c (mchar_fd v) (sys_trace v).

Definition set_mchar_fd (fd : Z) (v : vendor) : vendor :=
  mkVendor (core v) fd (sys_trace v).

Definition sys_log (c : sys_call) (v : vendor) : vendor :=
  mkVendor (core v) (mchar_fd v) (sys_trace v ++ [c]).

(** The static initialiser of [mchar_fd] is -1. *)
Definition vendor_start (c : state) : vendor :=
  {| core := c; mchar_fd := -1; sys_trace := [] |}.

(** The [do ... while (1)] of [BT_VND_OP_USERIAL_OPEN]; [fuel] bounds the
    iterations of the model and [None] is running out of it. *)
Fixpoint userial_open_loop (o : os) (fuel : nat) (retry : Z) (v : vendor)
    : option vendor :=
  match fuel with
  | O => None
  | S fuel' =>
      let r := os_open o (sys_trace v) mchar_port in
      let v := set_mchar_fd r (sys_log (Sys_open mchar_port r) v) in
      if mchar_fd v <? 0 then
        let v := sys_log (Sys_usleep 200000) v in
        let retry := retry - 1 in
        if retry =? 0 then Some v
        else userial_open_loop o fuel' retry v
      else Some v
  end.

Section Vendor.
Context `{bt_hci_bdroid} `{bt_vendor_lib}.

(** [param] is the array of [int] that the pointer [param] points to; the
    result is the return value, that array and the state. [None] is abnormal
    termination, as in the sequencer. *)
Definition bt_vnd_mrvl_if_op (o : os) (opcode : bt_vendor_opcode_t)
    (param : list Z) (v : vendor) : option (Z * list Z * vendor) :=
  let ret := 0 in
  let retry := 20 in
  match opcode with
  | BT_VND_OP_POWER_CTRL =>
      match param !! 0%nat with
      | None => None
      | Some power_state =>
          if BT_VND_PWR_OFF =? power_state then
            Some (ret, param, sys_log Bluetooth_disable v)
          else if BT_VND_PWR_ON =? power_state then
            Some (ret, param, sys_log Bluetooth_enable v)
          else Some (-1, param, v)
      end
  | BT_VND_OP_FW_CFG =>
      match hw_mrvl_config_start (core v) with
      | Some (_, c) => Some (ret, param, set_core c v)
      | None => None
      end
  | BT_VND_OP_SCO_CFG =>
      match hw_mrvl_sco_config (core v) with
      | Some (_, c) => Some (ret, param, set_core c v)
      | None => None
      end
  | BT_VND_OP_USERIAL_OPEN =>
      match userial_open_loop o (Z.to_nat retry) retry v with
      | None => None
      | Some v =>
          let ret := if mchar_fd v <? 0 then -1 else 1 in
          match store_byte param 0 (mchar_fd v) with
          | Some param => Some (ret, param, v)
          | None => None
          end
      end
  | BT_VND_OP_USERIAL_CLOSE =>
      if mchar_fd v <? 0 then Some (-1, param, v)
      else
        let v := sys_log (Sys_ioctl_release (mchar_fd v)) v in
        let v := sys_log (Sys_usleep 1000) v in
        let r := os_close o (sys_trace v) (mchar_fd v) in
        let v := sys_log (Sys_close (mchar_fd v) r) v in
        Some (if r <? 0 then -1 else ret, param, v)
  | BT_VND_OP_GET_LPM_IDLE_TIMEOUT => Some (ret, param, v)
  | BT_VND_OP_LPM_SET_MODE =>
      if non_null (bt_vendor_cbacks (core v))
      then Some (ret, param, sys_log (Lpm_cb ret) v)
      else Some (ret, param, v)
  | BT_VND_OP_LPM_WAKE_SET_STATE => Some (ret, param, v)
  | BT_VND_OP_other _ => Some (-1, param, v)
  end.

Definition bt_vnd_mrvl_if_cleanup (v : vendor) : vendor := v.

End Vendor.

(** The results of the [open] calls and the arguments of the [usleep] calls
    in a trace. *)
Definition open_results (tr : list sys_call) : list Z :=
  omap (fun c => match c with Sys_open _ r => Some r | _ => None end) tr.

Definition usleep_calls (tr : list sys_call) : list Z :=
  omap (fun c => match c with Sys_usleep n => Some n | _ => None end) tr.

(** The calls of failed attempts to open the port, with results [fails]:
    each [open] is followed by the 200 ms [usleep]. *)
Definition attempts (fails : list Z) : list sys_call :=
  fails ≫= fun r => [Sys_open mchar_port r; Sys_usleep 200000].

(** The three calls of [BT_VND_OP_USERIAL_CLOSE] on descriptor [fd], where
    [close] returns [r]. *)
Definition closing (fd r : Z) : list sys_call :=
  [Sys_ioctl_release fd; Sys_usleep 1000; Sys_close fd r].

(** ** Definitions used to state the further properties *)

(** The transition table of the SCO pipeline: the command that follows the
    completed one, with its payload. *)
Definition next_command (completed : Z) : option (Z * list Z) :=
  if completed =? 0xFC07 then Some (0xFC28, [0x03; 0x00; 0x03])
  else if completed =? 0xFC28 then Some (0xFC29, [0x03; 0x00])
  else if completed =? 0xFC29 then Some (0xFC1D, [0x01])
  else None.

(** The command that a step of a pipeline builds and sends, with the
    payload length it passes to [build_cmd_buf]: the first command of the
    pipeline for an entry point, the next row of the table for the SCO
    dispatcher, none for the firmware dispatcher and the last row. *)
Definition step_command (e : entry) (s : state) : option (Z * Z * list Z) :=
  match e with
  | config_start =>
      Some (HCI_CMD_MARVELL_WRITE_BD_ADDRESS, WRITE_BD_ADDRESS_SIZE,
            0xFE :: 0x06 :: reverse (vnd_local_bd_addr s))
  | sco_config =>
      Some (HCI_CMD_MARVELL_WRITE_PCM_SETTINGS, WRITE_PCM_SETTINGS_SIZE,
            [0x02])
  | sco_config_cb (Some p) =>
      match heap s !! p with
      | Some buf =>
          match next_command (evt_opcode buf) with
          | Some (opcode, payload) =>
              Some (opcode, Z.of_nat (length payload), payload)
          | None => None
          end
      | None => None
      end
  | _ => None
  end.

(** The five commands of the file with their payloads, for the device
    address [bd_addr]. *)
Definition wire_commands (bd_addr : list Z) : list (Z * list Z) :=
  [(HCI_CMD_MARVELL_WRITE_BD_ADDRESS, 0xFE :: 0x06 :: reverse bd_addr);
   (HCI_CMD_MARVELL_WRITE_PCM_SETTINGS, [0x02]);
   (HCI_CMD_MARVELL_WRITE_PCM_SYNC_SETTINGS, [0x03; 0x00; 0x03]);
   (HCI_CMD_MARVELL_WRITE_PCM_LINK_SETTINGS, [0x03; 0x00]);
   (HCI_CMD_MARVELL_SET_SCO_DATA_PATH, [0x01])].

(** The buffers an entry owns when it is invoked: a dispatcher owns its
    event buffer. *)
Definition handed (e : entry) : list ptr :=
  match e with
  | config_start_cb (Some p) | sco_config_cb (Some p) => [p]
  | _ => []
  end.

(** Giving up the buffer [p]: [None] when it is not owned. *)
Fixpoint disown (p : ptr) (own : list ptr) : option (list ptr) :=
  match own with
  | [] => None
  | q :: own' =>
      if decide (q = p) then Some own' else (q ::.) <$> disown p own'
  end.

(** The buffers owned after the calls [tr], starting with [own]: an
    allocation adds its block, a deallocation and an accepted send give one
    up, and every buffer that is deallocated or sent must be owned ([None]
    otherwise). *)
Fixpoint owned_after (own : list ptr) (tr : list call) : option (list ptr) :=
  match tr with
  | [] => Some own
  | Alloc _ (Some q) :: tr' => owned_after (q :: own) tr'
  | Dealloc q :: tr' =>
      match disown q own with
      | Some own' => owned_after own' tr'
      | None => None
      end
  | Xmit _ q _ _ r :: tr' =>
      match disown q own with
      | Some own' => owned_after (if r then own' else own) tr'
      | None => None
      end
  | _ :: tr' => owned_after own tr'
  end.

(** An operating system on which [open] fails [n] times and then returns
    descriptor 5, and [close] succeeds. *)
Definition opens_after (n : nat) : os :=
  {| os_open := fun tr _ =>
       if (length (open_results tr) <? n)%nat then -1 else 5;
     os_close := fun _ _ => 0 |}.

(** The power states of Android's bt_vendor_lib.h. *)
Definition vendor_lib : bt_vendor_lib :=
  {| BT_VND_PWR_OFF := 0; BT_VND_PWR_ON := 1 |}.

(** [vendor_start booted] after a [BT_VND_OP_USERIAL_OPEN] that succeeds at
    the third attempt. *)
Definition opened : vendor :=
  match @bt_vnd_mrvl_if_op bdroid vendor_lib (opens_after 2)
          BT_VND_OP_USERIAL_OPEN [0] (vendor_start booted) with
  | Some (_, _, v) => v
  | None => vendor_start booted
  end.

(** An event that differs from [cmd_cmpl 0xFC07 0] in everything but the
    two opcode bytes. *)
Definition odd_event : HC_BT_HDR :=
  {| event := 0; len := 0; offset := 9; layer_specific := 9;
     data := [0xFF; 0x00; 0x07; 0x07; 0xFC; 0x0C; 0x99] |}.

(** * Proofs *)

(** ** Machine arithmetic *)

Lemma to_u16_small z : is_u16 z -> to_u16 z = z.
Proof. unfold is_u16, to_u16. intros Hz. apply Z.mod_small. lia. Qed.

Lemma to_u8_is_u8 z : is_u8 (to_u8 z).
Proof. unfold is_u8, to_u8. apply Z.mod_pos_bound. lia. Qed.

Lemma u16_split z :
  is_u16 z -> to_u8 z + 256 * to_u8 (Z.shiftr z 8) = z.
Proof.
  unfold is_u16, to_u8. intros Hz.
  rewrite Z.shiftr_div_pow2 by lia. change (2 ^ 8) with 256.
  rewrite (Z.mod_small (z / 256)).
  - pose proof (Z.div_mod z 256). lia.
  - split; [apply Z.div_pos; lia | apply Z.div_lt_upper_bound; lia].
Qed.

Lemma u16_join lo hi :
  is_u8 lo -> is_u8 hi ->
  to_u16 (to_u16 lo + Z.shiftl (to_u16 hi) 8) = lo + 256 * hi.
Proof.
  unfold is_u8. intros Hlo Hhi.
  rewrite (to_u16_small lo), (to_u16_small hi) by (unfold is_u16; lia).
  rewrite Z.shiftl_mul_pow2 by lia. change (2 ^ 8) with 256.
  rewrite (Z.mul_comm hi). apply to_u16_small. unfold is_u16. lia.
Qed.

(** ** Running the monad *)

Ltac unfold_calls :=
  unfold call_alloc, call_dealloc, call_xmit_cb, call_fwcfg_cb,
    call_scocfg_cb, deref, receive in *.

Ltac unfold_monad :=
  unfold bind, get, modify, lift, ret, crash, assert in *.

Ltac unfold_state :=
  unfold log, set_heap, set_write_bd_address, set_vnd_local_bd_addr,
    set_bt_vendor_cbacks in *.

Ltac run := unfold_calls; unfold_monad; unfold_state; cbn.

Lemma bind_assoc {A B C} (m : M A) (f : A -> M B) (k : B -> M C) s :
  (x <~ (y <~ m ;; f y) ;; k x) s = (y <~ m ;; x <~ f y ;; k x) s.
Proof. unfold bind. by destruct (m s) as [[? ?]|]. Qed.

Lemma mem_read_all (l : list Z) n : n = length l -> mem_read l n = Some l.
Proof.
  intros ->. unfold mem_read.
  rewrite (proj2 (Nat.leb_le _ _)) by lia. by rewrite firstn_all.
Qed.

Section Properties.
Context `{bt_hci_bdroid}.

(** What [build_cmd_buf] does when a table is registered. *)
Lemma build_cmd_buf_registered cmd pl_len payload s t :
  bt_vendor_cbacks s = Some t ->
  Z.to_nat pl_len = length payload ->
  build_cmd_buf cmd pl_len payload s =
    let cmd_len := to_u16 (HCI_CMD_PREAMBLE_SIZE + pl_len) in
    let size := BT_HC_HDR_SIZE + cmd_len in
    let s1 := log (Alloc size (alloc t (trace s) size)) s in
    match alloc t (trace s) size with
    | None => Some (None, s1)
    | Some b =>
        Some (Some b,
              set_heap (<[b := {| event := MSG_STACK_TO_HC_HCI_CMD;
                                  len := cmd_len;
                                  offset := 0;
                                  layer_specific := 0;
                                  data := to_u8 cmd :: to_u8 (Z.shiftr cmd 8)
                                          :: pl_len :: payload |}]> (heap s)) s1)
    end.
Proof.
  intros Hcb Hlen. destruct s; simpl in *; subst.
  unfold build_cmd_buf. unfold_calls. unfold_monad. cbn.
  destruct (alloc t _ _); [|done].
  rewrite mem_read_all by done. done.
Qed.

Lemma build_cmd_buf_unregistered cmd pl_len payload s :
  bt_vendor_cbacks s = None ->
  build_cmd_buf cmd pl_len payload s = Some (None, s).
Proof.
  intros Hcb. destruct s; simpl in *; subst. done.
Qed.

Lemma same_globals_refl s : same_globals s s.
Proof. by repeat split. Qed.

Lemma same_globals_trans s1 s2 s3 :
  same_globals s1 s2 -> same_globals s2 s3 -> same_globals s1 s3.
Proof. unfold same_globals. intuition congruence. Qed.

Lemma build_and_send s t k cmd pl_len payload :
  bt_vendor_cbacks s = Some t ->
  Z.to_nat pl_len = length payload ->
  exists s',
    (p_buf <~ build_cmd_buf cmd pl_len payload ;; send_or_abort k cmd p_buf) s
      = Some (tt, s') /\
    trace s' = trace s ++ send_calls t (trace s) k cmd pl_len payload /\
    same_globals s s'.
Proof.
  intros Hcb Hlen. unfold bind at 1.
  rewrite (build_cmd_buf_registered _ _ _ _ t) by done.
  unfold send_calls, cmd_buf. cbn zeta.
  destruct (alloc t _ _) as [b|].
  - destruct s; simpl in Hcb; subst.
    unfold send_or_abort, report_cb. run. rewrite lookup_insert_eq.
    destruct (xmit_cb t _ _ _ _ _).
    + eexists. split; [done|]. cbn. rewrite <- app_assoc. by repeat split.
    + destruct k; cbn; eexists; (split; [done|]); cbn;
        rewrite <- !app_assoc; by repeat split.
  - destruct s; simpl in Hcb; subst.
    unfold send_or_abort, report_cb.
    destruct k; run;
      eexists; (split; [done|]); cbn; rewrite <- !app_assoc; by repeat split.
Qed.

(** ** The event parser *)

Lemma wf_evt_inv buf :
  wf_evt buf ->
  exists d0 d1 d2 lo hi st rest,
    data buf = d0 :: d1 :: d2 :: lo :: hi :: st :: rest /\
    is_u8 lo /\ is_u8 hi /\ is_u8 st.
Proof.
  intros [Hlen Hall].
  destruct (data buf) as [|d0 [|d1 [|d2 [|lo [|hi [|st rest]]]]]];
    simpl in Hlen; try lia.
  exists d0, d1, d2, lo, hi, st, rest. split; [done|].
  repeat (apply Forall_cons in Hall as [? Hall]). done.
Qed.

Lemma parse_evt_buf_wf s p buf evt_params :
  heap s !! p = Some buf ->
  wf_evt buf ->
  parse_evt_buf (Some p) evt_params s
    = Some ({| cmd := evt_opcode buf; cmd_ret_param := evt_status buf |}, s).
Proof.
  intros Hp Hwf.
  destruct (wf_evt_inv _ Hwf) as (d0 & d1 & d2 & lo & hi & st & rest & Hd & Hlo & Hhi & Hst).
  unfold parse_evt_buf, evt_opcode, evt_status. run.
  rewrite Hp, Hd. cbn. by rewrite u16_join.
Qed.

(** ** The state invariant *)

Lemma same_globals_wf s s' : same_globals s s' -> wf_state s -> wf_state s'.
Proof.
  unfold same_globals, wf_state.
  intros (_ & -> & -> & -> & -> & -> & ->). done.
Qed.

Lemma populate_bd_addr_params_wf a addr :
  length a = 6%nat -> length addr = 6%nat ->
  populate_bd_addr_params (0xFE :: 0x06 :: a) 2 addr
    = Some (0xFE :: 0x06 :: reverse addr).
Proof.
  intros Ha Haddr.
  destruct a as [|x0 [|x1 [|x2 [|x3 [|x4 [|x5 [|]]]]]]]; try done.
  destruct addr as [|a0 [|a1 [|a2 [|a3 [|a4 [|a5 [|]]]]]]]; done.
Qed.

(** ** What each entry does, as the calls it adds to the trace *)

Lemma hw_mrvl_sco_config_calls s t :
  bt_vendor_cbacks s = Some t ->
  wf_state s ->
  exists s',
    hw_mrvl_sco_config s = Some (tt, s') /\
    trace s' = trace s ++
      send_calls t (trace s) cb_sco_config HCI_CMD_MARVELL_WRITE_PCM_SETTINGS
        WRITE_PCM_SETTINGS_SIZE [0x02] /\
    same_globals s s'.
Proof.
  intros Hcb (Haddr & Hw1 & Hw2 & Hw3 & Hw4 & a & Hw5 & Ha).
  destruct s; simpl in *; subst.
  destruct (build_and_send
    (mkState (Some t) vnd_local_bd_addr0 [2] [3; 0; 3] [3; 0] [1]
       (254 :: 6 :: a) heap0 trace0) t cb_sco_config
    HCI_CMD_MARVELL_WRITE_PCM_SETTINGS WRITE_PCM_SETTINGS_SIZE [0x02])
    as (s' & Hrun & Htr & Hg); [done..|].
  exists s'. split; [|split; [exact Htr | exact Hg]].
  rewrite <- Hrun. reflexivity.
Qed.

Lemma hw_mrvl_config_start_calls s t :
  bt_vendor_cbacks s = Some t ->
  wf_state s ->
  exists s',
    hw_mrvl_config_start s = Some (tt, s') /\
    trace s' = trace s ++
      send_calls t (trace s) cb_config_start HCI_CMD_MARVELL_WRITE_BD_ADDRESS
        WRITE_BD_ADDRESS_SIZE (0xFE :: 0x06 :: reverse (vnd_local_bd_addr s)) /\
    same_globals (set_write_bd_address
                    (0xFE :: 0x06 :: reverse (vnd_local_bd_addr s)) s) s'.
Proof.
  intros Hcb (Haddr & Hw1 & Hw2 & Hw3 & Hw4 & a & Hw5 & Ha).
  destruct s; simpl in *; subst.
  destruct (build_and_send
    (set_write_bd_address (0xFE :: 0x06 :: reverse vnd_local_bd_addr0)
       (mkState (Some t) vnd_local_bd_addr0 [2] [3; 0; 3] [3; 0] [1]
          (254 :: 6 :: a) heap0 trace0)) t cb_config_start
    HCI_CMD_MARVELL_WRITE_BD_ADDRESS WRITE_BD_ADDRESS_SIZE
    (0xFE :: 0x06 :: reverse vnd_local_bd_addr0)) as (s' & Hrun & Htr & Hg).
  - done.
  - cbn [length]. rewrite length_reverse, Haddr. reflexivity.
  - exists s'. split; [|split; [exact Htr | exact Hg]].
    rewrite <- Hrun. unfold hw_mrvl_config_start. run.
    rewrite populate_bd_addr_params_wf by done. reflexivity.
Qed.

Lemma hw_mrvl_sco_config_cb_unfold p_mem :
  hw_mrvl_sco_config_cb p_mem =
    (cb <~ get bt_vendor_cbacks ;;
     assert (non_null cb && non_null p_mem) ;;;
     p_evt_buf <~ lift p_mem ;;
     evt_params <~ parse_evt_buf (Some p_evt_buf) (mkEvt 0 0) ;;
     call_dealloc p_evt_buf ;;;
     sco_continue evt_params).
Proof. reflexivity. Qed.

Lemma sco_continue_calls s t evt_params :
  bt_vendor_cbacks s = Some t ->
  wf_state s ->
  exists s',
    sco_continue evt_params s = Some (tt, s') /\
    trace s' = trace s ++ next_calls t (trace s) (cmd evt_params) /\
    same_globals s s'.
Proof.
  intros Hcb (Haddr & Hw1 & Hw2 & Hw3 & Hw4 & a & Hw5 & Ha).
  destruct s; simpl in *; subst.
  unfold sco_continue, next_calls.
  set (s := mkState (Some t) vnd_local_bd_addr0 [2] [3; 0; 3] [3; 0] [1]
              (254 :: 6 :: a) heap0 trace0).
  destruct (cmd evt_params =? HCI_CMD_MARVELL_WRITE_PCM_SETTINGS).
  { destruct (build_and_send s t cb_sco_config
      HCI_CMD_MARVELL_WRITE_PCM_SYNC_SETTINGS WRITE_PCM_SYNC_SETTINGS_SIZE
      [0x03; 0x00; 0x03]) as (s' & Hrun & Htr & Hg); [done..|].
    exists s'. split; [|split; [exact Htr | exact Hg]].
    rewrite <- Hrun, bind_assoc. unfold bind at 1, get at 1. cbv beta iota.
    rewrite bind_assoc. reflexivity. }
  destruct (cmd evt_params =? HCI_CMD_MARVELL_WRITE_PCM_SYNC_SETTINGS).
  { destruct (build_and_send s t cb_sco_config
      HCI_CMD_MARVELL_WRITE_PCM_LINK_SETTINGS WRITE_PCM_LINK_SETTINGS_SIZE
      [0x03; 0x00]) as (s' & Hrun & Htr & Hg); [done..|].
    exists s'. split; [|split; [exact Htr | exact Hg]].
    rewrite <- Hrun, bind_assoc. unfold bind at 1, get at 1. cbv beta iota.
    rewrite bind_assoc. reflexivity. }
  destruct (cmd evt_params =? HCI_CMD_MARVELL_WRITE_PCM_LINK_SETTINGS).
  { destruct (build_and_send s t cb_sco_config
      HCI_CMD_MARVELL_SET_SCO_DATA_PATH SET_SCO_DATA_PATH_SIZE
      [0x01]) as (s' & Hrun & Htr & Hg); [done..|].
    exists s'. split; [|split; [exact Htr | exact Hg]].
    rewrite <- Hrun, bind_assoc. unfold bind at 1, get at 1. cbv beta iota.
    rewrite bind_assoc. reflexivity. }
  destruct (cmd evt_params =? HCI_CMD_MARVELL_SET_SCO_DATA_PATH).
  { subst s. run. eexists. split; [done|]. by repeat split. }
  subst s. unfold send_or_abort, report_cb. run.
  eexists. split; [done|]. by repeat split.
Qed.

Lemma hw_mrvl_sco_config_cb_calls s t p buf :
  bt_vendor_cbacks s = Some t ->
  wf_state s ->
  heap s !! p = Some buf ->
  wf_evt buf ->
  exists s',
    hw_mrvl_sco_config_cb (Some p) s = Some (tt, s') /\
    trace s' = trace s ++
      Dealloc p :: next_calls t (trace s ++ [Dealloc p]) (evt_opcode buf) /\
    same_globals s s'.
Proof.
  intros Hcb Hwf Hp Hbuf.
  set (s1 := set_heap (delete p (heap s)) (log (Dealloc p) s)).
  destruct (sco_continue_calls s1 t (mkEvt (evt_opcode buf) (evt_status buf)))
    as (s' & Hrun & Htr & Hg).
  { done. }
  { by apply (same_globals_wf s); [repeat split|]. }
  exists s'. split; [|split].
  - rewrite <- Hrun, hw_mrvl_sco_config_cb_unfold.
    unfold bind at 1. unfold get at 1. rewrite Hcb. cbn.
    unfold bind at 1. cbn. unfold bind at 1. cbn.
    unfold bind at 1. rewrite (parse_evt_buf_wf s p buf) by done.
    unfold bind at 1. unfold call_dealloc. run. by rewrite Hcb.
  - rewrite Htr. cbn. by rewrite <- app_assoc.
  - apply (same_globals_trans s s1); [by repeat split | done].
Qed.

Lemma hw_mrvl_config_start_cb_calls s p buf :
  heap s !! p = Some buf ->
  wf_evt buf ->
  exists s',
    hw_mrvl_config_start_cb (Some p) s = Some (tt, s') /\
    trace s' = trace s ++ fw_cb_calls (bt_vendor_cbacks s) p (evt_opcode buf) /\
    same_globals s s'.
Proof.
  intros Hp Hbuf. unfold hw_mrvl_config_start_cb.
  unfold bind at 1. cbn. unfold bind at 1. cbn.
  unfold bind at 1. rewrite (parse_evt_buf_wf s p buf) by done.
  destruct s as [[t|] ? ? ? ? ? ? ? ?]; run.
  - destruct (evt_opcode buf =? _); cbn; eexists; (split; [done|]);
      cbn; rewrite <- app_assoc; by repeat split.
  - destruct (evt_opcode buf =? _); cbn; eexists; (split; [done|]);
      cbn; rewrite app_nil_r; by repeat split.
Qed.

(** ** Every reachable state satisfies the invariant *)

Lemma preserves_ret {A} (a : A) : preserves (ret a).
Proof. intros s a' s' [= _ <-]. apply same_globals_refl. Qed.

Lemma preserves_crash {A} : preserves (@crash A).
Proof. intros s a s' [=]. Qed.

Lemma preserves_get {A} (f : state -> A) : preserves (get f).
Proof. intros s a' s' [= _ <-]. apply same_globals_refl. Qed.

Lemma preserves_lift {A} (o : option A) : preserves (lift o).
Proof. destruct o; [apply preserves_ret | apply preserves_crash]. Qed.

Lemma preserves_assert b : preserves (assert b).
Proof. destruct b; [apply preserves_ret | apply preserves_crash]. Qed.

Lemma preserves_log c : preserves (modify (log c)).
Proof. intros s a' s' [= _ <-]. by repeat split. Qed.

Lemma preserves_set_heap h : preserves (modify (set_heap h)).
Proof. intros s a' s' [= _ <-]. by repeat split. Qed.

Lemma preserves_bind {A B} (m : M A) (k : A -> M B) :
  preserves m -> (forall a, preserves (k a)) -> preserves (x <~ m ;; k x).
Proof.
  intros Hm Hk s b s'. unfold bind.
  destruct (m s) as [[a s1]|] eqn:E; [|done].
  intros Hrun. eapply same_globals_trans; [by eapply Hm | by eapply Hk].
Qed.

Ltac preserve :=
  repeat first
    [ apply preserves_ret | apply preserves_crash | apply preserves_get
    | apply preserves_lift | apply preserves_assert | apply preserves_log
    | apply preserves_set_heap
    | apply preserves_bind; [|intros ?]
    | match goal with
      | |- preserves (if ?b then _ else _) => destruct b
      | |- preserves (match ?o with Some _ => _ | None => _ end) => destruct o
      | |- preserves (match ?o with (_, _) => _ end) => destruct o
      end ].

Lemma preserves_call_alloc size : preserves (call_alloc size).
Proof. unfold call_alloc. preserve. Qed.

Lemma preserves_call_dealloc p : preserves (call_dealloc p).
Proof. unfold call_dealloc. preserve. Qed.

Lemma preserves_call_xmit_cb opcode p k : preserves (call_xmit_cb opcode p k).
Proof. unfold call_xmit_cb, deref. preserve. Qed.

Lemma preserves_call_fwcfg_cb r : preserves (call_fwcfg_cb r).
Proof. unfold call_fwcfg_cb. preserve. Qed.

Lemma preserves_call_scocfg_cb r : preserves (call_scocfg_cb r).
Proof. unfold call_scocfg_cb. preserve. Qed.

Lemma preserves_build_cmd_buf cmd pl_len payload :
  preserves (build_cmd_buf cmd pl_len payload).
Proof.
  unfold build_cmd_buf. cbv zeta. preserve; apply preserves_call_alloc.
Qed.

Lemma preserves_parse_evt_buf p evt_params :
  preserves (parse_evt_buf p evt_params).
Proof. unfold parse_evt_buf, deref. cbv zeta. preserve. Qed.

Lemma preserves_send_or_abort k cmd p_buf :
  preserves (send_or_abort k cmd p_buf).
Proof.
  unfold send_or_abort, report_cb.
  destruct k; preserve;
    first [ apply preserves_call_xmit_cb | apply preserves_call_dealloc
          | apply preserves_call_fwcfg_cb | apply preserves_call_scocfg_cb ].
Qed.

Lemma preserves_hw_mrvl_config_start_cb p_mem :
  preserves (hw_mrvl_config_start_cb p_mem).
Proof.
  unfold hw_mrvl_config_start_cb. cbv zeta.
  preserve;
    first [ apply preserves_parse_evt_buf | apply preserves_call_dealloc
          | apply preserves_call_fwcfg_cb ].
Qed.

Lemma preserves_sco_continue evt_params : preserves (sco_continue evt_params).
Proof.
  unfold sco_continue. cbv zeta.
  preserve;
    first [ apply preserves_build_cmd_buf | apply preserves_call_scocfg_cb
          | apply preserves_send_or_abort ].
Qed.

Lemma preserves_hw_mrvl_sco_config_cb p_mem :
  preserves (hw_mrvl_sco_config_cb p_mem).
Proof.
  rewrite hw_mrvl_sco_config_cb_unfold.
  preserve;
    first [ apply preserves_parse_evt_buf | apply preserves_call_dealloc
          | apply preserves_build_cmd_buf | apply preserves_call_scocfg_cb
          | apply preserves_send_or_abort ].
Qed.

Lemma exec_wf e s s' :
  wf_state s -> exec e s = Some (tt, s') -> wf_state s'.
Proof.
  intros Hwf Hrun. destruct e; simpl in Hrun.
  - destruct (bt_vendor_cbacks s) as [t|] eqn:Hcb.
    + destruct (hw_mrvl_config_start_calls s t Hcb Hwf) as (s1 & Hrun1 & _ & Hg).
      assert (s' = s1) as -> by congruence.
      apply (same_globals_wf _ _ Hg).
      destruct Hwf as (Haddr & Hw1 & Hw2 & Hw3 & Hw4 & a & Hw5 & Ha).
      repeat split; try done. cbn. eexists. split; [done|].
      by rewrite length_reverse.
    + unfold hw_mrvl_config_start, bind, get, assert in Hrun.
      by rewrite Hcb in Hrun.
  - destruct (bt_vendor_cbacks s) as [t|] eqn:Hcb.
    + destruct (hw_mrvl_sco_config_calls s t Hcb Hwf) as (s1 & Hrun1 & _ & Hg).
      assert (s' = s1) as -> by congruence.
      by apply (same_globals_wf _ _ Hg).
    + unfold hw_mrvl_sco_config, bind, get, assert in Hrun.
      by rewrite Hcb in Hrun.
  - eapply same_globals_wf; [|done].
    by eapply preserves_hw_mrvl_config_start_cb.
  - eapply same_globals_wf; [|done].
    by eapply preserves_hw_mrvl_sco_config_cb.
Qed.

Lemma bt_vnd_mrvl_if_init_wf p_cb local_bdaddr s r s' :
  wf_state s ->
  bt_vnd_mrvl_if_init p_cb local_bdaddr s = Some (r, s') ->
  wf_state s' /\ bt_vendor_cbacks s' = p_cb /\
  vnd_local_bd_addr s' = take 6 local_bdaddr /\
  (6 <= length local_bdaddr)%nat.
Proof.
  intros (Haddr & Hw1 & Hw2 & Hw3 & Hw4 & a & Hw5 & Ha).
  unfold bt_vnd_mrvl_if_init. run.
  destruct (mem_read local_bdaddr 6) as [bytes|] eqn:Hr; cbn; [|done].
  unfold mem_read in Hr.
  destruct (6 <=? length local_bdaddr)%nat eqn:Hlen; [|done].
  apply Nat.leb_le in Hlen. injection Hr as <-. intros [= _ <-]. cbn.
  rewrite drop_ge by lia. rewrite app_nil_r.
  repeat split; cbn; try done; [|by exists a].
  rewrite length_take. lia.
Qed.

Lemma bt_vnd_mrvl_if_init_eq p_cb local_bdaddr s :
  (6 <= length local_bdaddr)%nat ->
  bt_vnd_mrvl_if_init p_cb local_bdaddr s
    = Some (0, set_vnd_local_bd_addr
                 (take 6 local_bdaddr ++ drop 6 (vnd_local_bd_addr s))
                 (set_bt_vendor_cbacks p_cb s)).
Proof.
  intros Hlen. unfold bt_vnd_mrvl_if_init. run. unfold mem_read.
  by rewrite (proj2 (Nat.leb_le _ _)) by done.
Qed.

Lemma reachable_wf s : reachable s -> wf_state s.
Proof.
  induction 1 as [cbacks bd_addr Hlen | s p_cb a r s' _ IH Hrun
                 | s e s' _ IH Hrun | s p buf s' _ IH Hrun].
  - repeat split; try done. by eexists.
  - by eapply bt_vnd_mrvl_if_init_wf.
  - by eapply exec_wf.
  - eapply same_globals_wf; [|done].
    revert Hrun. unfold receive. apply preserves_bind; [preserve|].
    intros ?. preserve.
Qed.

(** ** The shape of one invocation *)

Lemma send_calls_outcome t tr k cmd pl_len payload :
  outcome k (send_calls t tr k cmd pl_len payload).
Proof.
  unfold send_calls. cbv zeta.
  destruct (alloc t tr _); [|constructor].
  destruct (xmit_cb t _ _ _ _ _); constructor.
Qed.

Lemma next_calls_outcome t tr opcode :
  outcome cb_sco_config (next_calls t tr opcode).
Proof.
  unfold next_calls.
  repeat (destruct (opcode =? _); [apply send_calls_outcome|]).
  destruct (opcode =? _); apply (out_reported cb_sco_config).
Qed.

Lemma exec_outcome e s t :
  wf_state s ->
  bt_vendor_cbacks s = Some t ->
  ready e s ->
  exists s' calls,
    exec e s = Some (tt, s') /\
    trace s' = trace s ++ prologue e ++ calls /\
    outcome (pipeline_of e) calls /\
    bt_vendor_cbacks s' = Some t.
Proof.
  intros Hwf Hcb Hready. destruct e as [| |p_mem|p_mem]; simpl in *.
  - destruct (hw_mrvl_config_start_calls s t Hcb Hwf) as (s' & Hrun & Htr & Hg).
    exists s', (send_calls t (trace s) cb_config_start
                  HCI_CMD_MARVELL_WRITE_BD_ADDRESS WRITE_BD_ADDRESS_SIZE
                  (0xFE :: 0x06 :: reverse (vnd_local_bd_addr s))).
    repeat split; [done..|apply send_calls_outcome|].
    destruct Hg as (-> & _). done.
  - destruct (hw_mrvl_sco_config_calls s t Hcb Hwf) as (s' & Hrun & Htr & Hg).
    exists s', (send_calls t (trace s) cb_sco_config
                  HCI_CMD_MARVELL_WRITE_PCM_SETTINGS WRITE_PCM_SETTINGS_SIZE
                  [0x02]).
    repeat split; [done..|apply send_calls_outcome|].
    destruct Hg as (-> & _). done.
  - destruct Hready as (p & buf & -> & Hp & Hbuf).
    destruct (hw_mrvl_config_start_cb_calls s p buf Hp Hbuf)
      as (s' & Hrun & Htr & Hg).
    rewrite Hcb in Htr. simpl in Htr.
    exists s', [Fwcfg (if evt_opcode buf =? HCI_CMD_MARVELL_WRITE_BD_ADDRESS
                       then BT_VND_OP_RESULT_SUCCESS
                       else BT_VND_OP_RESULT_FAIL)].
    repeat split; [done..|apply (out_reported cb_config_start)|].
    destruct Hg as (-> & _). done.
  - destruct Hready as (p & buf & -> & Hp & Hbuf).
    destruct (hw_mrvl_sco_config_cb_calls s t p buf Hcb Hwf Hp Hbuf)
      as (s' & Hrun & Htr & Hg).
    exists s', (next_calls t (trace s ++ [Dealloc p]) (evt_opcode buf)).
    repeat split; [done..|apply next_calls_outcome|].
    destruct Hg as (-> & _). done.
Qed.

(** ** Completion events delivered to the SCO pipeline *)

Lemma xmit_calls_app a b : xmit_calls (a ++ b) = xmit_calls a ++ xmit_calls b.
Proof. apply omap_app. Qed.

Lemma scocfg_calls_app a b :
  scocfg_calls (a ++ b) = scocfg_calls a ++ scocfg_calls b.
Proof. apply omap_app. Qed.

Lemma fwcfg_calls_app a b :
  fwcfg_calls (a ++ b) = fwcfg_calls a ++ fwcfg_calls b.
Proof. apply omap_app. Qed.

Lemma result_calls_app a b :
  result_calls (a ++ b) = result_calls a ++ result_calls b.
Proof. apply omap_app. Qed.

Lemma outstanding_snoc tr c :
  outstanding (tr ++ [c]) =
    match c with Xmit opcode _ _ k true => Some (k, opcode) | _ => None end.
Proof. unfold outstanding. by rewrite last_snoc. Qed.

(** Either the command went out and waits for its event, or nothing is
    outstanding after the step. *)
Lemma send_calls_cases t tr k cmd pl_len payload :
  (exists size p buf,
     send_calls t tr k cmd pl_len payload
       = [Alloc size (Some p); Xmit cmd p buf k true]) \/
  (forall tr', outstanding (tr' ++ send_calls t tr k cmd pl_len payload) = None).
Proof.
  unfold send_calls. cbv zeta.
  destruct (alloc t tr _) as [b|].
  - destruct (xmit_cb t _ _ _ _ _).
    + left. by eexists _, _, _.
    + right. intros tr'.
      change [?a; ?b; ?c; ?d] with ([a; b; c] ++ [d]).
      rewrite app_assoc, outstanding_snoc. by destruct k.
  - right. intros tr'.
    change [?a; ?b] with ([a] ++ [b]).
    rewrite app_assoc, outstanding_snoc. by destruct k.
Qed.

Lemma send_calls_never_refused t tr k cmd pl_len payload :
  never_refuses t ->
  exists size p buf,
    send_calls t tr k cmd pl_len payload
      = [Alloc size (Some p); Xmit cmd p buf k true].
Proof.
  intros [Halloc Hxmit]. unfold send_calls. cbv zeta.
  destruct (alloc t tr _) as [b|] eqn:Ha; [|by apply Halloc in Ha].
  rewrite Hxmit. by eexists _, _, _.
Qed.

Lemma send_calls_not_idle t tr tr' k cmd pl_len payload :
  never_refuses t ->
  outstanding (tr' ++ send_calls t tr k cmd pl_len payload) <> None.
Proof.
  intros Ht.
  destruct (send_calls_never_refused t tr k cmd pl_len payload Ht)
    as (size & p & buf & ->).
  change [?a; ?b] with ([a] ++ [b]).
  by rewrite app_assoc, outstanding_snoc.
Qed.

Lemma complete_cons p buf rest s :
  complete ((p, buf) :: rest) s =
    match outstanding (trace s) with
    | Some (k, _) =>
        (receive p buf ;;; dispatch k (Some p) ;;;
         n <~ complete rest ;; ret (S n)) s
    | None => Some (0%nat, s)
    end.
Proof.
  change (complete ((p, buf) :: rest) s) with
    (match outstanding (trace s) with
     | Some (k, _) =>
         receive p buf ;;; dispatch k (Some p) ;;;
         n <~ complete rest ;; ret (S n)
     | None => ret 0%nat
     end s).
  by destruct (outstanding (trace s)) as [[? ?]|].
Qed.

Lemma complete_idle evts s :
  outstanding (trace s) = None -> complete evts s = Some (0%nat, s).
Proof.
  intros Hout. destruct evts as [|[p buf] rest]; [done|].
  by rewrite complete_cons, Hout.
Qed.

Lemma complete_sco s t p buf rest op0 :
  wf_state s ->
  bt_vendor_cbacks s = Some t ->
  wf_evt buf ->
  outstanding (trace s) = Some (cb_sco_config, op0) ->
  exists s1,
    wf_state s1 /\ bt_vendor_cbacks s1 = Some t /\
    trace s1 = trace s ++
      Dealloc p :: next_calls t (trace s ++ [Dealloc p]) (evt_opcode buf) /\
    complete ((p, buf) :: rest) s =
      match complete rest s1 with
      | Some (n, s') => Some (S n, s')
      | None => None
      end.
Proof.
  intros Hwf Hcb Hbuf Hout.
  set (s0 := set_heap (<[p := buf]> (heap s)) s).
  destruct (hw_mrvl_sco_config_cb_calls s0 t p buf) as (s1 & Hrun & Htr & Hg);
    [done | by apply (same_globals_wf s); [repeat split|]
    | apply lookup_insert_eq | done |].
  exists s1. split; [|split; [|split]].
  - apply (same_globals_wf s0); [done|].
    by apply (same_globals_wf s); [repeat split|].
  - destruct Hg as (-> & _). done.
  - exact Htr.
  - rewrite complete_cons, Hout.
    unfold bind at 1, receive. unfold bind at 1, get at 1, modify at 1.
    fold s0. unfold bind at 1. cbn [dispatch]. rewrite Hrun.
    unfold bind, ret. by destruct (complete rest s1) as [[? ?]|].
Qed.

Lemma finishes_last p buf :
  wf_evt buf ->
  evt_opcode buf = HCI_CMD_MARVELL_SET_SCO_DATA_PATH ->
  finishes [(p, buf)] [].
Proof.
  intros Hbuf Hop s t op0 Hwf Hcb Hout.
  destruct (complete_sco s t p buf [] op0) as (s1 & _ & _ & Htr & Hrun);
    [done..|].
  rewrite Hop in Htr. change (next_calls _ _ _) with
    [Scocfg BT_VND_OP_RESULT_SUCCESS] in Htr.
  exists 1%nat, s1. eexists. split; [exact Hrun|]. split; [exact Htr|]. done.
Qed.

Lemma finishes_step p buf rest sends opcode cmd' pl_len payload :
  wf_evt buf ->
  evt_opcode buf = opcode ->
  (forall t tr, next_calls t tr opcode
                = send_calls t tr cb_sco_config cmd' pl_len payload) ->
  rest <> [] ->
  finishes rest sends ->
  finishes ((p, buf) :: rest) ((cmd', true) :: sends).
Proof.
  intros Hbuf Hop Hnext Hne Hrest s t op0 Hwf Hcb Hout.
  destruct (complete_sco s t p buf rest op0)
    as (s1 & Hwf1 & Hcb1 & Htr1 & Hrun); [done..|].
  rewrite Hop, Hnext in Htr1. rewrite Hrun.
  destruct (send_calls_cases t (trace s ++ [Dealloc p]) cb_sco_config
              cmd' pl_len payload) as [(size & q & b & Hsent)|Hidle].
  - rewrite Hsent in Htr1.
    destruct (Hrest s1 t cmd' Hwf1 Hcb1)
      as (n & s' & calls & Hrun' & Htr' & Hn & Hall).
    { rewrite Htr1.
      change (?a :: ?b :: [?c]) with ([a; b] ++ [c]).
      by rewrite app_assoc, outstanding_snoc. }
    rewrite Hrun'. exists (S n), s'. eexists. split; [done|]. split.
    { rewrite Htr', Htr1, <- app_assoc. done. }
    split.
    + intros [= ->]. destruct (Hn eq_refl) as (Hx & Hs & Hf).
      rewrite xmit_calls_app, scocfg_calls_app, fwcfg_calls_app, Hx, Hs, Hf.
      done.
    + intros Ht. simpl. by rewrite (Hall Ht).
  - rewrite complete_idle.
    2:{ rewrite Htr1.
        change (?a :: ?l) with ([a] ++ l). rewrite app_assoc. apply Hidle. }
    exists 1%nat, s1. eexists. split; [reflexivity|]. split; [exact Htr1|].
    split.
    + simpl. intros [= Hlen]. by destruct rest.
    + intros Ht. by destruct (send_calls_not_idle t (trace s ++ [Dealloc p])
        [] cb_sco_config cmd' pl_len payload Ht).
Qed.

(** ** More on what each entry does *)

Lemma preserves_hw_mrvl_sco_config : preserves hw_mrvl_sco_config.
Proof.
  unfold hw_mrvl_sco_config. cbv zeta.
  preserve;
    first [ apply preserves_build_cmd_buf | apply preserves_call_xmit_cb
          | apply preserves_call_dealloc | apply preserves_call_scocfg_cb ].
Qed.

Lemma hw_mrvl_config_start_globals s s' :
  hw_mrvl_config_start s = Some (tt, s') ->
  exists v,
    populate_bd_addr_params (write_bd_address s) 2 (vnd_local_bd_addr s)
      = Some v /\
    same_globals (set_write_bd_address v s) s'.
Proof.
  unfold hw_mrvl_config_start.
  unfold bind at 1, get at 1.
  destruct (bt_vendor_cbacks s) as [t|]; [|done]. cbn [non_null assert].
  unfold bind at 1, ret at 1. unfold bind at 1, get at 1.
  unfold bind at 1, get at 1. unfold bind at 1.
  destruct (populate_bd_addr_params _ _ _) as [v|]; [|done].
  cbn [lift]. unfold ret at 1. unfold bind at 1, modify at 1.
  intros Hrun. exists v. split; [done|].
  revert Hrun. generalize (set_write_bd_address v s). intros s1.
  cbv zeta.
  assert (preserves
    (payload <~ get write_bd_address ;;
     p_buf <~ build_cmd_buf HCI_CMD_MARVELL_WRITE_BD_ADDRESS
                WRITE_BD_ADDRESS_SIZE payload ;;
     send_or_abort cb_config_start HCI_CMD_MARVELL_WRITE_BD_ADDRESS p_buf))
    as Hp.
  { preserve;
      first [ apply preserves_build_cmd_buf | apply preserves_send_or_abort ]. }
  apply Hp.
Qed.

Lemma sco_cb_after_receive s t p buf :
  bt_vendor_cbacks s = Some t ->
  wf_evt buf ->
  (receive p buf ;;; hw_mrvl_sco_config_cb (Some p)) s =
    sco_continue (mkEvt (evt_opcode buf) (evt_status buf))
      (set_heap (delete p (heap s)) (log (Dealloc p) s)).
Proof.
  intros Hcb Hbuf.
  set (s0 := set_heap (<[p := buf]> (heap s)) s).
  change ((receive p buf ;;; hw_mrvl_sco_config_cb (Some p)) s)
    with (hw_mrvl_sco_config_cb (Some p) s0).
  rewrite hw_mrvl_sco_config_cb_unfold.
  unfold bind at 1, get at 1.
  change (bt_vendor_cbacks s0) with (bt_vendor_cbacks s). rewrite Hcb.
  cbn [non_null andb assert]. unfold bind at 1, ret at 1.
  unfold bind at 1. cbn [lift]. unfold ret at 1.
  unfold bind at 1.
  rewrite (parse_evt_buf_wf s0 p buf) by (done || apply lookup_insert_eq).
  unfold bind at 1.
  assert (call_dealloc p s0
          = Some (tt, set_heap (delete p (heap s)) (log (Dealloc p) s))) as ->.
  { unfold call_dealloc. run. rewrite Hcb. cbn.
    by rewrite delete_insert_eq, ?Hcb. }
  done.
Qed.

Lemma send_calls_xmit t tr k cmd pl_len payload opcode q b k' r :
  Xmit opcode q b k' r ∈ send_calls t tr k cmd pl_len payload ->
  opcode = cmd /\ k' = k /\ b = cmd_buf cmd pl_len payload /\
  Alloc (BT_HC_HDR_SIZE + to_u16 (HCI_CMD_PREAMBLE_SIZE + pl_len)) (Some q)
    ∈ send_calls t tr k cmd pl_len payload.
Proof.
  unfold send_calls. cbv zeta.
  destruct (alloc t tr _) as [a|].
  - destruct (xmit_cb t _ _ _ _ _); intros Hin;
      repeat (apply elem_of_cons in Hin as [Hin|Hin]);
      try (by apply elem_of_nil in Hin); try discriminate Hin;
      try (by destruct k);
      injection Hin as -> -> -> -> ->; repeat split; apply list_elem_of_here.
  - intros Hin. repeat (apply elem_of_cons in Hin as [Hin|Hin]);
      try (by apply elem_of_nil in Hin); try discriminate Hin; by destruct k.
Qed.

Lemma exec_sends e s t :
  wf_state s ->
  bt_vendor_cbacks s = Some t ->
  ready e s ->
  exists s' calls,
    exec e s = Some (tt, s') /\
    trace s' = trace s ++ prologue e ++ calls /\
    same_globals (if e is config_start
                  then set_write_bd_address
                         (0xFE :: 0x06 :: reverse (vnd_local_bd_addr s)) s
                  else s) s' /\
    ((exists tr cmd payload,
        (cmd, payload) ∈ wire_commands (vnd_local_bd_addr s) /\
        calls = send_calls t tr (pipeline_of e) cmd
                  (Z.of_nat (length payload)) payload) \/
     (exists r, calls = [report (pipeline_of e) r])).
Proof.
  intros Hwf Hcb Hready.
  pose proof Hwf as (Haddr & _).
  destruct e as [| |p_mem|p_mem]; simpl in *.
  - destruct (hw_mrvl_config_start_calls s t Hcb Hwf) as (s' & Hrun & Htr & Hg).
    eexists s', _. split; [done|]. split; [exact Htr|]. split; [done|].
    left. exists (trace s), HCI_CMD_MARVELL_WRITE_BD_ADDRESS,
      (0xFE :: 0x06 :: reverse (vnd_local_bd_addr s)).
    split; [apply list_elem_of_here|].
    cbn [length]. by rewrite length_reverse, Haddr.
  - destruct (hw_mrvl_sco_config_calls s t Hcb Hwf) as (s' & Hrun & Htr & Hg).
    eexists s', _. split; [done|]. split; [exact Htr|]. split; [done|].
    left. exists (trace s), HCI_CMD_MARVELL_WRITE_PCM_SETTINGS, [0x02].
    split; [|reflexivity].
    apply list_elem_of_further, list_elem_of_here.
  - destruct Hready as (p & buf & -> & Hp & Hbuf).
    destruct (hw_mrvl_config_start_cb_calls s p buf Hp Hbuf)
      as (s' & Hrun & Htr & Hg).
    rewrite Hcb in Htr. simpl in Htr.
    eexists s', _. split; [done|]. split; [exact Htr|]. split; [done|].
    right. by eexists.
  - destruct Hready as (p & buf & -> & Hp & Hbuf).
    destruct (hw_mrvl_sco_config_cb_calls s t p buf Hcb Hwf Hp Hbuf)
      as (s' & Hrun & Htr & Hg).
    eexists s', _. split; [done|]. split; [exact Htr|]. split; [done|].
    unfold next_calls.
    destruct (evt_opcode buf =? HCI_CMD_MARVELL_WRITE_PCM_SETTINGS).
    { left. exists (trace s ++ [Dealloc p]),
        HCI_CMD_MARVELL_WRITE_PCM_SYNC_SETTINGS, [0x03; 0x00; 0x03].
      split; [|reflexivity].
      do 2 apply list_elem_of_further. apply list_elem_of_here. }
    destruct (evt_opcode buf =? HCI_CMD_MARVELL_WRITE_PCM_SYNC_SETTINGS).
    { left. exists (trace s ++ [Dealloc p]),
        HCI_CMD_MARVELL_WRITE_PCM_LINK_SETTINGS, [0x03; 0x00].
      split; [|reflexivity].
      do 3 apply list_elem_of_further. apply list_elem_of_here. }
    destruct (evt_opcode buf =? HCI_CMD_MARVELL_WRITE_PCM_LINK_SETTINGS).
    { left. exists (trace s ++ [Dealloc p]),
        HCI_CMD_MARVELL_SET_SCO_DATA_PATH, [0x01].
      split; [|reflexivity].
      do 4 apply list_elem_of_further. apply list_elem_of_here. }
    destruct (evt_opcode buf =? HCI_CMD_MARVELL_SET_SCO_DATA_PATH);
      right; by eexists.
Qed.

(** ** A step whose command the transport rejects *)

Lemma send_calls_rejected t tr k cmd pl_len payload b size buf tr1 :
  size = BT_HC_HDR_SIZE + to_u16 (HCI_CMD_PREAMBLE_SIZE + pl_len) ->
  buf = cmd_buf cmd pl_len payload ->
  tr1 = tr ++ [Alloc size (Some b)] ->
  alloc t tr size = Some b ->
  xmit_cb t tr1 cmd b buf k = false ->
  send_calls t tr k cmd pl_len payload
    = [Alloc size (Some b); Xmit cmd b buf k false; Dealloc b;
       report k BT_VND_OP_RESULT_FAIL].
Proof.
  intros -> -> -> Halloc Hxmit. unfold send_calls. cbv zeta.
  by rewrite Halloc, Hxmit.
Qed.

Lemma exec_rejected e s t cmd pl_len payload b :
  wf_state s ->
  bt_vendor_cbacks s = Some t ->
  ready e s ->
  step_command e s = Some (cmd, pl_len, payload) ->
  let size := BT_HC_HDR_SIZE + (3 + pl_len) in
  let buf := {| event := MSG_STACK_TO_HC_HCI_CMD;
                len := 3 + pl_len;
                offset := 0;
                layer_specific := 0;
                data := to_u8 cmd :: to_u8 (Z.shiftr cmd 8)
                        :: pl_len :: payload |} in
  alloc t (trace s ++ prologue e) size = Some b ->
  xmit_cb t ((trace s ++ prologue e) ++ [Alloc size (Some b)]) cmd b buf
    (pipeline_of e) = false ->
  exists s',
    exec e s = Some (tt, s') /\
    trace s' = trace s ++ prologue e ++
      [Alloc size (Some b); Xmit cmd b buf (pipeline_of e) false; Dealloc b;
       report (pipeline_of e) BT_VND_OP_RESULT_FAIL].
Proof.
  intros Hwf Hcb Hready Hstep size buf.
  destruct e as [| |p_mem|p_mem]; cbn [step_command] in Hstep;
    cbn [prologue pipeline_of exec]; try discriminate Hstep.
  - injection Hstep as <- <- <-. rewrite app_nil_r. intros Halloc Hxmit.
    destruct (hw_mrvl_config_start_calls s t Hcb Hwf) as (s' & Hrun & Htr & _).
    exists s'. split; [done|]. rewrite Htr. f_equal.
    eapply send_calls_rejected;
      [reflexivity|reflexivity|reflexivity|exact Halloc|exact Hxmit].
  - injection Hstep as <- <- <-. rewrite app_nil_r. intros Halloc Hxmit.
    destruct (hw_mrvl_sco_config_calls s t Hcb Hwf) as (s' & Hrun & Htr & _).
    exists s'. split; [done|]. rewrite Htr. f_equal.
    eapply send_calls_rejected;
      [reflexivity|reflexivity|reflexivity|exact Halloc|exact Hxmit].
  - destruct Hready as (p & ebuf & -> & Hp & Hbuf).
    cbn [prologue]. rewrite Hp in Hstep. intros Halloc Hxmit.
    destruct (hw_mrvl_sco_config_cb_calls s t p ebuf Hcb Hwf Hp Hbuf)
      as (s' & Hrun & Htr & _).
    exists s'. split; [done|]. rewrite Htr. cbn [app]. do 2 f_equal.
    revert Hstep. unfold next_command, next_calls.
    change HCI_CMD_MARVELL_WRITE_PCM_SETTINGS with 0xFC07.
    change HCI_CMD_MARVELL_WRITE_PCM_SYNC_SETTINGS with 0xFC28.
    change HCI_CMD_MARVELL_WRITE_PCM_LINK_SETTINGS with 0xFC29.
    do 3 (destruct (evt_opcode ebuf =? _);
          [ intros [= <- <- <-]; eapply send_calls_rejected;
            [reflexivity|reflexivity|reflexivity|exact Halloc|exact Hxmit] | ]).
    discriminate.
Qed.

End Properties.

(** * The claims *)

Section Claims.
Context `{bt_hci_bdroid}.

(** C9: for a well-formed event buffer, [parse_evt_buf] sets the opcode
    field to the little-endian 16-bit value of the two bytes at offset 3 of
    the event payload and the status field to the byte at offset 5; both
    fields of the output record are overwritten and nothing else changes. *)
Theorem parse_evt_buf_fields s p buf evt_params :
  heap s !! p = Some buf ->
  wf_evt buf ->
  exists lo hi st,
    data buf !! 3%nat = Some lo /\
    data buf !! 4%nat = Some hi /\
    data buf !! 5%nat = Some st /\
    parse_evt_buf (Some p) evt_params s
      = Some ({| cmd := lo + 256 * hi; cmd_ret_param := st |}, s).
Proof.
  intros Hp Hbuf. rewrite (parse_evt_buf_wf s p buf) by done.
  destruct (wf_evt_inv _ Hbuf)
    as (d0 & d1 & d2 & lo & hi & st & rest & Hd & _).
  exists lo, hi, st. unfold evt_opcode, evt_status. rewrite Hd. done.
Qed.

(** C3: for a 16-bit opcode and a payload of [pl_len <= 255] bytes,
    [build_cmd_buf] returns null exactly when no callback table is
    registered or its allocator returns null; otherwise the buffer it
    returns holds the opcode's low byte, its high byte, [pl_len] and the
    payload, and its length field is [3 + pl_len]. *)
Theorem build_cmd_buf_result cmd pl_len payload s :
  is_u16 cmd ->
  0 <= pl_len <= 255 ->
  Z.of_nat (length payload) = pl_len ->
  exists r s',
    build_cmd_buf cmd pl_len payload s = Some (r, s') /\
    (r = None <->
       bt_vendor_cbacks s = None \/
       exists t, bt_vendor_cbacks s = Some t /\
                 alloc t (trace s) (BT_HC_HDR_SIZE + (3 + pl_len)) = None) /\
    (forall b, r = Some b ->
       exists buf lo hi,
         heap s' !! b = Some buf /\
         is_u8 lo /\ is_u8 hi /\ lo + 256 * hi = cmd /\
         data buf = lo :: hi :: pl_len :: payload /\
         len buf = 3 + pl_len).
Proof.
  intros Hcmd Hpl Hlen.
  assert (to_u16 (HCI_CMD_PREAMBLE_SIZE + pl_len) = 3 + pl_len) as Hcl.
  { apply to_u16_small. unfold is_u16, HCI_CMD_PREAMBLE_SIZE. lia. }
  destruct (bt_vendor_cbacks s) as [t|] eqn:Hcb.
  - rewrite (build_cmd_buf_registered _ _ _ _ t) by (done || lia).
    cbv zeta. rewrite Hcl.
    destruct (alloc t (trace s) _) as [b|] eqn:Ha.
    + eexists _, _. split; [done|]. split.
      * split; [done|]. intros [[=]|(t' & [= <-] & Ha')]. congruence.
      * intros b' [= <-].
        eexists _, (to_u8 cmd), (to_u8 (Z.shiftr cmd 8)).
        cbn. rewrite lookup_insert_eq.
        repeat split; try done; try apply to_u8_is_u8. by apply u16_split.
    + eexists _, _. split; [done|]. split; [|done].
      split; [|done]. intros _. right. eauto.
  - rewrite build_cmd_buf_unregistered by done.
    eexists _, _. split; [done|]. split; [|done].
    split; [|done]. intros _. by left.
Qed.

(** C2: for every device address [a0..a5] given to [bt_vnd_mrvl_if_init],
    [hw_mrvl_config_start] builds one command, whenever the allocator gives
    it a buffer, and hands it to the transport: opcode 0xFC22, preamble
    0x22 0xFC 0x08, and an 8-byte payload 0xFE, 0x06, a5, a4, a3, a2, a1,
    a0. *)
Theorem write_bd_address_command s t a0 a1 a2 a3 a4 a5 :
  reachable s ->
  exists s1 s2 calls,
    bt_vnd_mrvl_if_init (Some t) [a0; a1; a2; a3; a4; a5] s = Some (0, s1) /\
    hw_mrvl_config_start s1 = Some (tt, s2) /\
    trace s2 = trace s1 ++ calls /\
    match alloc t (trace s1) (BT_HC_HDR_SIZE + 11) with
    | None => calls = [Alloc (BT_HC_HDR_SIZE + 11) None;
                       Fwcfg BT_VND_OP_RESULT_FAIL]
    | Some p =>
        exists buf r rest,
          calls = Alloc (BT_HC_HDR_SIZE + 11) (Some p)
                  :: Xmit HCI_CMD_MARVELL_WRITE_BD_ADDRESS p buf
                       cb_config_start r :: rest /\
          len buf = 11 /\
          data buf = [0x22; 0xFC; 0x08] ++
                     [0xFE; 0x06; a5; a4; a3; a2; a1; a0]
    end.
Proof.
  intros Hreach. apply reachable_wf in Hreach.
  pose proof (bt_vnd_mrvl_if_init_eq (Some t) [a0; a1; a2; a3; a4; a5] s)
    as Hinit.
  specialize (Hinit ltac:(simpl; lia)).
  destruct (bt_vnd_mrvl_if_init_wf _ _ _ _ _ Hreach Hinit)
    as (Hwf1 & Hcb1 & Haddr1 & _).
  destruct (hw_mrvl_config_start_calls _ t Hcb1 Hwf1) as (s2 & Hrun & Htr & Hg).
  eexists _, s2, _. split; [exact Hinit|]. split; [exact Hrun|].
  split; [exact Htr|].
  rewrite Haddr1. unfold send_calls. cbn.
  change (to_u16 (HCI_CMD_PREAMBLE_SIZE + WRITE_BD_ADDRESS_SIZE)) with 11.
  destruct (alloc t _ _) as [p|]; [|done].
  destruct (xmit_cb t _ _ _ _ _); eexists _, _, _; (split; [done|]); done.
Qed.

(** C10: a call of [hw_mrvl_config_start] (with a table registered, which
    the function asserts) stores the device address, reversed, in bytes 2..7
    of [write_bd_address]; bytes 0 and 1 stay 0xFE and 0x06, and the four
    other payload templates stay as they were. *)
Theorem hw_mrvl_config_start_frame s t :
  reachable s ->
  bt_vendor_cbacks s = Some t ->
  exists s',
    hw_mrvl_config_start s = Some (tt, s') /\
    write_bd_address s'
      = take 2 (write_bd_address s) ++ reverse (vnd_local_bd_addr s) /\
    take 2 (write_bd_address s') = [0xFE; 0x06] /\
    length (write_bd_address s') = 8%nat /\
    write_pcm_settings s' = write_pcm_settings s /\
    write_pcm_sync_settings s' = write_pcm_sync_settings s /\
    write_pcm_link_settings s' = write_pcm_link_settings s /\
    set_sco_data_path s' = set_sco_data_path s.
Proof.
  intros Hreach Hcb. apply reachable_wf in Hreach.
  destruct (hw_mrvl_config_start_calls s t Hcb Hreach) as (s' & Hrun & _ & Hg).
  destruct Hreach as (Haddr & _ & _ & _ & _ & a & Hw & Ha).
  destruct Hg as (_ & _ & Hg1 & Hg2 & Hg3 & Hg4 & Hg5). simpl in *.
  exists s'. rewrite Hg5, Hw. repeat split; try done.
  simpl. by rewrite length_reverse, Haddr.
Qed.

(** C4: at every step of either pipeline that has a command to send (the
    two entry points with the first command of their pipeline, the SCO
    dispatcher with the next row of its table), when the allocator gives a
    buffer and the transport rejects the command ([xmit_cb] returns false),
    the invocation makes exactly these calls after freeing its event buffer,
    if any: the allocation, the send, the deallocation of the buffer just
    built and the FAIL report to the result callback of its pipeline. In
    any of the four functions, a rejected send is followed by that
    deallocation and that report, which end the invocation. *)
Theorem rejected_send_aborts e s t :
  reachable s ->
  bt_vendor_cbacks s = Some t ->
  ready e s ->
  exists s' calls,
    exec e s = Some (tt, s') /\
    trace s' = trace s ++ calls /\
    (forall cmd pl_len payload b,
       step_command e s = Some (cmd, pl_len, payload) ->
       let size := BT_HC_HDR_SIZE + (3 + pl_len) in
       let buf := {| event := MSG_STACK_TO_HC_HCI_CMD;
                     len := 3 + pl_len;
                     offset := 0;
                     layer_specific := 0;
                     data := to_u8 cmd :: to_u8 (Z.shiftr cmd 8)
                             :: pl_len :: payload |} in
       alloc t (trace s ++ prologue e) size = Some b ->
       xmit_cb t ((trace s ++ prologue e) ++ [Alloc size (Some b)]) cmd b buf
         (pipeline_of e) = false ->
       calls = prologue e ++
         [Alloc size (Some b); Xmit cmd b buf (pipeline_of e) false;
          Dealloc b; report (pipeline_of e) BT_VND_OP_RESULT_FAIL]) /\
    (forall opcode p buf k,
       Xmit opcode p buf k false ∈ calls ->
       k = pipeline_of e /\
       exists before size,
         calls = before ++
           [Alloc size (Some p); Xmit opcode p buf k false; Dealloc p;
            report k BT_VND_OP_RESULT_FAIL]).
Proof.
  intros Hreach Hcb Hready. apply reachable_wf in Hreach.
  destruct (exec_outcome e s t Hreach Hcb Hready)
    as (s' & calls & Hrun & Htr & Hout & _).
  exists s', (prologue e ++ calls). split; [done|]. split; [done|]. split.
  - intros cmd pl_len payload b Hstep size buf Halloc Hxmit.
    destruct (exec_rejected e s t cmd pl_len payload b Hreach Hcb Hready Hstep
                Halloc Hxmit) as (s'' & Hrun' & Htr').
    assert (s'' = s') as -> by congruence.
    rewrite Htr in Htr'. by apply app_inv_head in Htr'.
  - intros opcode p buf k Hin.
    apply elem_of_app in Hin as [Hin|Hin].
    { destruct e as [| |[q|]|[q|]]; simpl in Hin;
        repeat (apply elem_of_cons in Hin as [[=]|Hin]);
        by apply elem_of_nil in Hin. }
    destruct Hout as [size q op b|size q op b|size|r];
      repeat (apply elem_of_cons in Hin as [Hin|Hin]);
      try (by apply elem_of_nil in Hin);
      try discriminate Hin;
      try (by destruct (pipeline_of e)).
    injection Hin as -> -> -> ->. split; [done|].
    by exists (prologue e), size.
Qed.

(** C1: the SCO pipeline, started by [hw_mrvl_sco_config] and then handed,
    through its completion callback, the completion events of 0xFC07,
    0xFC28, 0xFC29 and 0xFC1D in this order: when all four events are
    delivered, exactly four commands were sent, with these opcodes in this
    order, and the SCO result callback was invoked exactly once, with
    SUCCESS (and the firmware result callback not at all). All four are
    delivered when the allocator and the transport never refuse. *)
Theorem sco_pipeline_success s t p1 b1 p2 b2 p3 b3 p4 b4 :
  reachable s ->
  bt_vendor_cbacks s = Some t ->
  wf_evt b1 -> evt_opcode b1 = HCI_CMD_MARVELL_WRITE_PCM_SETTINGS ->
  wf_evt b2 -> evt_opcode b2 = HCI_CMD_MARVELL_WRITE_PCM_SYNC_SETTINGS ->
  wf_evt b3 -> evt_opcode b3 = HCI_CMD_MARVELL_WRITE_PCM_LINK_SETTINGS ->
  wf_evt b4 -> evt_opcode b4 = HCI_CMD_MARVELL_SET_SCO_DATA_PATH ->
  exists n s' calls,
    sco_pipeline [(p1, b1); (p2, b2); (p3, b3); (p4, b4)] s = Some (n, s') /\
    trace s' = trace s ++ calls /\
    (n = 4%nat ->
     xmit_calls calls =
       [(HCI_CMD_MARVELL_WRITE_PCM_SETTINGS, true);
        (HCI_CMD_MARVELL_WRITE_PCM_SYNC_SETTINGS, true);
        (HCI_CMD_MARVELL_WRITE_PCM_LINK_SETTINGS, true);
        (HCI_CMD_MARVELL_SET_SCO_DATA_PATH, true)] /\
     scocfg_calls calls = [BT_VND_OP_RESULT_SUCCESS] /\
     fwcfg_calls calls = []) /\
    (never_refuses t -> n = 4%nat).
Proof.
  intros Hreach Hcb Hb1 Ho1 Hb2 Ho2 Hb3 Ho3 Hb4 Ho4.
  apply reachable_wf in Hreach.
  destruct (hw_mrvl_sco_config_calls s t Hcb Hreach) as (s1 & Hrun & Htr & Hg).
  unfold sco_pipeline, bind at 1. rewrite Hrun.
  assert (wf_state s1) as Hwf1 by by apply (same_globals_wf s).
  assert (bt_vendor_cbacks s1 = Some t) as Hcb1 by by destruct Hg as (-> & _).
  destruct (send_calls_cases t (trace s) cb_sco_config
              HCI_CMD_MARVELL_WRITE_PCM_SETTINGS WRITE_PCM_SETTINGS_SIZE [0x02])
    as [(size & q & b & Hsent)|Hidle].
  - rewrite Hsent in Htr.
    assert (finishes [(p1, b1); (p2, b2); (p3, b3); (p4, b4)]
              [(HCI_CMD_MARVELL_WRITE_PCM_SYNC_SETTINGS, true);
               (HCI_CMD_MARVELL_WRITE_PCM_LINK_SETTINGS, true);
               (HCI_CMD_MARVELL_SET_SCO_DATA_PATH, true)]) as Hfin.
    { eapply finishes_step; [done..|reflexivity|done|].
      eapply finishes_step; [done..|reflexivity|done|].
      eapply finishes_step; [done..|reflexivity|done|].
      by apply finishes_last. }
    destruct (Hfin s1 t HCI_CMD_MARVELL_WRITE_PCM_SETTINGS Hwf1 Hcb1)
      as (n & s' & calls & Hrun' & Htr' & Hn & Hall).
    { rewrite Htr. change [?a; ?b] with ([a] ++ [b]).
      by rewrite app_assoc, outstanding_snoc. }
    exists n, s'. eexists. split; [exact Hrun'|]. split.
    { rewrite Htr', Htr, <- app_assoc. done. }
    split; [|exact Hall].
    intros Hn4. destruct (Hn Hn4) as (Hx & Hs & Hf).
    rewrite xmit_calls_app, scocfg_calls_app, fwcfg_calls_app, Hx, Hs, Hf.
    done.
  - rewrite complete_idle by (rewrite Htr; apply Hidle).
    exists 0%nat, s1. eexists. split; [done|]. split; [exact Htr|].
    split; [done|]. intros Ht.
    by destruct (send_calls_not_idle t (trace s) [] cb_sco_config
      HCI_CMD_MARVELL_WRITE_PCM_SETTINGS WRITE_PCM_SETTINGS_SIZE [0x02] Ht).
Qed.

(** C8: two well-formed completion events that carry the same opcode, with
    whatever status bytes, make [hw_mrvl_config_start_cb] do the same calls:
    the same result callback with the same result. *)
Theorem config_start_cb_ignores_status s p b1 b2 :
  wf_evt b1 -> wf_evt b2 ->
  evt_opcode b1 = evt_opcode b2 ->
  exists s1 s2 calls,
    (receive p b1 ;;; hw_mrvl_config_start_cb (Some p)) s = Some (tt, s1) /\
    (receive p b2 ;;; hw_mrvl_config_start_cb (Some p)) s = Some (tt, s2) /\
    trace s1 = trace s ++ calls /\
    trace s2 = trace s ++ calls /\
    fwcfg_calls calls =
      match bt_vendor_cbacks s with
      | Some _ =>
          [if evt_opcode b1 =? HCI_CMD_MARVELL_WRITE_BD_ADDRESS
           then BT_VND_OP_RESULT_SUCCESS else BT_VND_OP_RESULT_FAIL]
      | None => []
      end.
Proof.
  intros Hb1 Hb2 Hop.
  set (s01 := set_heap (<[p := b1]> (heap s)) s).
  set (s02 := set_heap (<[p := b2]> (heap s)) s).
  destruct (hw_mrvl_config_start_cb_calls s01 p b1) as (s1 & Hrun1 & Htr1 & _);
    [apply lookup_insert_eq | done |].
  destruct (hw_mrvl_config_start_cb_calls s02 p b2) as (s2 & Hrun2 & Htr2 & _);
    [apply lookup_insert_eq | done |].
  exists s1, s2. eexists. split; [exact Hrun1|]. split; [exact Hrun2|].
  split; [exact Htr1|]. split; [by rewrite Htr2, Hop|].
  simpl. by destruct (bt_vendor_cbacks s).
Qed.

(** C5, as amended: with a callback table registered, a completion event
    whose opcode is in no row of the dispatcher's table (anything but 0xFC22
    for the firmware pipeline; none of 0xFC07, 0xFC28, 0xFC29, 0xFC1D for
    the SCO pipeline) makes the dispatcher free the event buffer, invoke the
    failure callback of its pipeline once, and send nothing. *)
Theorem unknown_opcode_fails s t k p buf :
  reachable s ->
  bt_vendor_cbacks s = Some t ->
  heap s !! p = Some buf ->
  wf_evt buf ->
  in_table k (evt_opcode buf) = false ->
  exists s',
    dispatch k (Some p) s = Some (tt, s') /\
    trace s' = trace s ++ [Dealloc p; report k BT_VND_OP_RESULT_FAIL].
Proof.
  intros Hreach Hcb Hp Hbuf Htab. apply reachable_wf in Hreach.
  destruct k; simpl in *.
  - destruct (hw_mrvl_config_start_cb_calls s p buf Hp Hbuf)
      as (s' & Hrun & Htr & _).
    exists s'. split; [done|]. rewrite Htr, Hcb. simpl. by rewrite Htab.
  - destruct (hw_mrvl_sco_config_cb_calls s t p buf Hcb Hreach Hp Hbuf)
      as (s' & Hrun & Htr & _).
    exists s'. split; [done|]. rewrite Htr. unfold next_calls.
    repeat (apply orb_false_elim in Htab as [Htab ?]).
    by repeat match goal with E : (_ =? _) = false |- _ => rewrite E; clear E end.
Qed.

(** C6, as amended: with a callback table registered, each of the two
    dispatchers deallocates the event buffer it is handed as its first call
    and exactly once, whatever the outcome. *)
Theorem event_buffer_freed s t k p buf :
  reachable s ->
  bt_vendor_cbacks s = Some t ->
  heap s !! p = Some buf ->
  wf_evt buf ->
  exists s' calls,
    dispatch k (Some p) s = Some (tt, s') /\
    trace s' = trace s ++ calls /\
    head calls = Some (Dealloc p) /\
    frees_of p calls = 1%nat.
Proof.
  intros Hreach Hcb Hp Hbuf. apply reachable_wf in Hreach.
  assert (forall e, e = config_start_cb (Some p) \/ e = sco_config_cb (Some p) ->
          exists s' calls, exec e s = Some (tt, s') /\
            trace s' = trace s ++ calls /\
            head calls = Some (Dealloc p) /\ frees_of p calls = 1%nat) as Hboth.
  { intros e He.
    destruct (exec_outcome e s t Hreach Hcb) as (s' & calls & Hrun & Htr & Hout & _).
    { destruct He as [-> | ->]; by exists p, buf. }
    exists s', (prologue e ++ calls). split; [done|]. split; [done|].
    assert (prologue e = [Dealloc p]) as -> by by destruct He as [-> | ->].
    split; [done|]. simpl. rewrite decide_True by done.
    destruct Hout as [size q op b|size q op b|size|r]; simpl;
      repeat case_decide; try done; by destruct (pipeline_of e). }
  destruct k; [apply (Hboth (config_start_cb (Some p))) | apply (Hboth (sco_config_cb (Some p)))]; auto.
Qed.

(** C7, as amended: with a callback table registered, an invocation of any
    of the four functions either makes one send, which the transport
    accepts, and invokes no result callback, or has no accepted send and
    invokes the result callback of its pipeline exactly once. *)
Theorem invocation_sends_or_reports e s t :
  reachable s ->
  bt_vendor_cbacks s = Some t ->
  ready e s ->
  exists s' calls,
    exec e s = Some (tt, s') /\
    trace s' = trace s ++ calls /\
    ((exists opcode, xmit_calls calls = [(opcode, true)]) /\
     result_calls calls = []
     \/
     (forall opcode, (opcode, true) ∉ xmit_calls calls) /\
     exists r, result_calls calls = [(pipeline_of e, r)]).
Proof.
  intros Hreach Hcb Hready. apply reachable_wf in Hreach.
  destruct (exec_outcome e s t Hreach Hcb Hready)
    as (s' & calls & Hrun & Htr & Hout & _).
  exists s', (prologue e ++ calls). split; [done|]. split; [done|].
  assert (xmit_calls (prologue e) = [] /\ result_calls (prologue e) = [])
    as [Hx Hr] by by destruct e as [| |[q|]|[q|]].
  rewrite xmit_calls_app, result_calls_app, Hx, Hr. simpl.
  destruct Hout as [size q op b|size q op b|size|r]; simpl.
  - left. eauto.
  - right. split.
    + intros opcode Hin. apply elem_of_cons in Hin as [[=]|Hin].
      destruct (pipeline_of e); by apply elem_of_nil in Hin.
    + exists BT_VND_OP_RESULT_FAIL. by destruct (pipeline_of e).
  - right. split.
    + intros opcode Hin. destruct (pipeline_of e); by apply elem_of_nil in Hin.
    + exists BT_VND_OP_RESULT_FAIL. by destruct (pipeline_of e).
  - right. split.
    + intros opcode Hin. destruct (pipeline_of e); by apply elem_of_nil in Hin.
    + exists r. by destruct (pipeline_of e).
Qed.

End Claims.

(** * Further properties of the code *)

Section Further.
Context `{bt_hci_bdroid}.

(** ** The stream macros *)

(** X1: what [UINT16_TO_STREAM] writes at a cursor, [STREAM_TO_UINT16] reads
    back at the same place: the same 16-bit value, and it leaves the cursor
    two bytes further, where the writer left it. *)
Theorem uint16_stream_round_trip (p rest : list Z) (u16 : Z) :
  is_u16 u16 ->
  STREAM_TO_UINT16 (UINT16_TO_STREAM p u16 ++ rest) (length p)
    = Some (u16, length (UINT16_TO_STREAM p u16)).
Proof.
  intros Hu. unfold STREAM_TO_UINT16, UINT16_TO_STREAM.
  rewrite <- app_assoc.
  rewrite (lookup_app_r p) by lia.
  rewrite (lookup_app_r p) by lia.
  rewrite Nat.sub_diag.
  replace (S (length p) - length p)%nat with 1%nat by lia.
  cbn. rewrite u16_join by apply to_u8_is_u8.
  rewrite u16_split by done. rewrite length_app. cbn. done.
Qed.

(** ** [populate_bd_addr_params] *)

Lemma store_byte_Some (arr : list Z) i v :
  (i < length arr)%nat -> store_byte arr i v = Some (<[i:=v]> arr).
Proof.
  intros Hi. unfold store_byte. by rewrite (proj2 (Nat.ltb_lt _ _)).
Qed.

Lemma store_byte_None (arr : list Z) i v :
  (length arr <= i)%nat -> store_byte arr i v = None.
Proof.
  intros Hi. unfold store_byte. by rewrite (proj2 (Nat.ltb_ge _ _)).
Qed.

Lemma populate_bd_addr_params_in_bounds arr params a0 a1 a2 a3 a4 a5 rest :
  (params + 6 <= length arr)%nat ->
  populate_bd_addr_params arr params (a0 :: a1 :: a2 :: a3 :: a4 :: a5 :: rest)
    = Some (<[S (S (S (S (S params)))) := a0]>
              (<[S (S (S (S params))) := a1]>
                 (<[S (S (S params)) := a2]>
                    (<[S (S params) := a3]>
                       (<[S params := a4]> (<[params := a5]> arr)))))).
Proof.
  intros Hlen. unfold populate_bd_addr_params. cbn.
  repeat (rewrite store_byte_Some by (rewrite ?length_insert; lia); cbn).
  done.
Qed.

Lemma populate_bd_addr_params_out_of_bounds arr params addr :
  (length arr < params + 6 \/ length addr < 6)%nat ->
  populate_bd_addr_params arr params addr = None.
Proof.
  intros Hout. unfold populate_bd_addr_params.
  destruct addr as [|a0 [|a1 [|a2 [|a3 [|a4 [|a5 rest]]]]]]; try done.
  destruct Hout as [Hout|Hout]; [|simpl in Hout; lia]. cbn.
  repeat
    match goal with
    | |- context [store_byte ?l ?i ?v] =>
        destruct (decide (i < length l)%nat);
          [ rewrite (store_byte_Some l i v) by done; cbn
          | by rewrite (store_byte_None l i v) by lia ]
    end.
  rewrite !length_insert in *. lia.
Qed.

(** X2: [populate_bd_addr_params] succeeds exactly when the six bytes fit in
    the array at [params] and the address has six bytes; it then stores the
    address in reverse at [params .. params + 5] and leaves every other byte
    of the array, and its length, as they were. *)
Theorem populate_bd_addr_params_bounds arr params addr :
  (is_Some (populate_bd_addr_params arr params addr) <->
   (params + 6 <= length arr)%nat /\ (6 <= length addr)%nat) /\
  forall arr',
    populate_bd_addr_params arr params addr = Some arr' ->
    length arr' = length arr /\
    (forall i, (i < 6)%nat -> arr' !! (params + i)%nat = addr !! (5 - i)%nat) /\
    (forall j, (j < params \/ params + 6 <= j)%nat -> arr' !! j = arr !! j).
Proof.
  destruct (decide ((params + 6 <= length arr)%nat /\ (6 <= length addr)%nat))
    as [[Harr Haddr]|Hout].
  - destruct addr as [|a0 [|a1 [|a2 [|a3 [|a4 [|a5 rest]]]]]];
      simpl in Haddr; try lia.
    rewrite populate_bd_addr_params_in_bounds by done.
    split; [split; [done|by eexists]|].
    intros arr' [= <-]. split; [by rewrite !length_insert|]. split.
    + intros i Hi.
      destruct i as [|[|[|[|[|[|]]]]]]; try lia;
        rewrite ?Nat.add_0_r, <- ?plus_n_Sm, ?Nat.add_0_r;
        repeat (rewrite list_lookup_insert_ne by lia);
        by rewrite list_lookup_insert_eq by (rewrite ?length_insert; lia).
    + intros j Hj. by repeat (rewrite list_lookup_insert_ne by lia).
  - rewrite populate_bd_addr_params_out_of_bounds by lia.
    split; [|done]. split; [by intros [? [=]]|done].
Qed.

(** ** Without a callback table *)

(** X3: with no callback table registered, [hw_mrvl_config_start],
    [hw_mrvl_sco_config] and [hw_mrvl_sco_config_cb] stop at their
    assertion, whereas [hw_mrvl_config_start_cb], handed a well-formed
    event, returns and leaves the whole state as it was: no call is made
    and the event buffer stays in memory. *)
Theorem without_callback_table s :
  bt_vendor_cbacks s = None ->
  hw_mrvl_config_start s = None /\
  hw_mrvl_sco_config s = None /\
  (forall p_mem, hw_mrvl_sco_config_cb p_mem s = None) /\
  (forall p buf,
     heap s !! p = Some buf -> wf_evt buf ->
     hw_mrvl_config_start_cb (Some p) s = Some (tt, s)).
Proof.
  intros Hcb. repeat split.
  - unfold hw_mrvl_config_start, bind, get. by rewrite Hcb.
  - unfold hw_mrvl_sco_config, bind, get. by rewrite Hcb.
  - intros p_mem. unfold hw_mrvl_sco_config_cb, bind, get. by rewrite Hcb.
  - intros p buf Hp Hbuf. unfold hw_mrvl_config_start_cb.
    unfold bind at 1. cbn. unfold bind at 1. cbn.
    unfold bind at 1. rewrite (parse_evt_buf_wf s p buf) by done.
    unfold bind, get. rewrite Hcb. cbn.
    by destruct (evt_opcode buf =? _); cbv beta; rewrite Hcb.
Qed.

(** ** The dispatchers and the event *)

Lemma new_calls_app {A} (m : M A) s a s' calls :
  m s = Some (a, s') -> trace s' = trace s ++ calls ->
  new_calls m s = Some calls.
Proof.
  intros Hrun Htr. unfold new_calls. rewrite Hrun. simpl.
  by rewrite Htr, drop_app_length.
Qed.

(** X4: of a completion event, both dispatchers use the opcode only: two
    well-formed events with the same two opcode bytes, whatever their event
    code, lengths, status and further bytes, lead to the same calls. *)
Theorem dispatch_reads_opcode_only k s p b1 b2 :
  wf_evt b1 -> wf_evt b2 ->
  evt_opcode b1 = evt_opcode b2 ->
  new_calls (receive p b1 ;;; dispatch k (Some p)) s
    = new_calls (receive p b2 ;;; dispatch k (Some p)) s.
Proof.
  intros Hb1 Hb2 Hop. destruct k; cbn [dispatch].
  - set (s01 := set_heap (<[p := b1]> (heap s)) s).
    set (s02 := set_heap (<[p := b2]> (heap s)) s).
    destruct (hw_mrvl_config_start_cb_calls s01 p b1) as (s1 & Hrun1 & Htr1 & _);
      [apply lookup_insert_eq | done |].
    destruct (hw_mrvl_config_start_cb_calls s02 p b2) as (s2 & Hrun2 & Htr2 & _);
      [apply lookup_insert_eq | done |].
    rewrite (new_calls_app
      (receive p b1 ;;; hw_mrvl_config_start_cb (Some p)) s tt s1 _ Hrun1 Htr1).
    rewrite (new_calls_app
      (receive p b2 ;;; hw_mrvl_config_start_cb (Some p)) s tt s2 _ Hrun2 Htr2).
    by rewrite Hop.
  - destruct (bt_vendor_cbacks s) as [t|] eqn:Hcb.
    + unfold new_calls.
      rewrite (sco_cb_after_receive s t p b1), (sco_cb_after_receive s t p b2)
        by done.
      by rewrite Hop.
    + unfold new_calls, hw_mrvl_sco_config_cb, receive. run.
      by rewrite Hcb.
Qed.

(** ** The commands that are sent *)

(** X5: the SCO dispatcher follows the transition table. For the completion
    of 0xFC07, 0xFC28 or 0xFC29 it frees the event buffer, asks for a buffer
    for the next command and, given one, sends that command with its fixed
    payload; when there is no buffer, or the transport rejects the command,
    it reports FAIL. For any other opcode it sends nothing and reports
    SUCCESS for 0xFC1D and FAIL otherwise. *)
Theorem sco_config_cb_follows_table s t p buf :
  reachable s ->
  bt_vendor_cbacks s = Some t ->
  heap s !! p = Some buf ->
  wf_evt buf ->
  exists s' calls,
    hw_mrvl_sco_config_cb (Some p) s = Some (tt, s') /\
    trace s' = trace s ++ Dealloc p :: calls /\
    match next_command (evt_opcode buf) with
    | Some (opcode, payload) =>
        let n := Z.of_nat (length payload) in
        let size := BT_HC_HDR_SIZE + (3 + n) in
        match alloc t (trace s ++ [Dealloc p]) size with
        | None => calls = [Alloc size None; Scocfg BT_VND_OP_RESULT_FAIL]
        | Some q =>
            exists r,
              calls =
                Alloc size (Some q)
                :: Xmit opcode q
                     {| event := MSG_STACK_TO_HC_HCI_CMD;
                        len := 3 + n;
                        offset := 0;
                        layer_specific := 0;
                        data := to_u8 opcode :: to_u8 (Z.shiftr opcode 8)
                                :: n :: payload |}
                     cb_sco_config r
                :: (if r then []
                    else [Dealloc q; Scocfg BT_VND_OP_RESULT_FAIL])
        end
    | None =>
        calls = [Scocfg (if evt_opcode buf =? HCI_CMD_MARVELL_SET_SCO_DATA_PATH
                         then BT_VND_OP_RESULT_SUCCESS
                         else BT_VND_OP_RESULT_FAIL)]
    end.
Proof.
  intros Hreach Hcb Hp Hbuf. apply reachable_wf in Hreach.
  destruct (hw_mrvl_sco_config_cb_calls s t p buf Hcb Hreach Hp Hbuf)
    as (s' & Hrun & Htr & _).
  exists s'. eexists. split; [exact Hrun|]. split; [exact Htr|].
  unfold next_command, next_calls.
  change HCI_CMD_MARVELL_WRITE_PCM_SETTINGS with 0xFC07.
  change HCI_CMD_MARVELL_WRITE_PCM_SYNC_SETTINGS with 0xFC28.
  change HCI_CMD_MARVELL_WRITE_PCM_LINK_SETTINGS with 0xFC29.
  do 3
    (destruct (evt_opcode buf =? _);
     [ unfold send_calls, cmd_buf; vm_compute to_u16; vm_compute length;
       vm_compute Z.of_nat; cbn zeta;
       change (3 + 3) with 6; change (3 + 2) with 5; change (3 + 1) with 4;
       unfold HCI_CMD_MARVELL_WRITE_PCM_SYNC_SETTINGS,
         HCI_CMD_MARVELL_WRITE_PCM_LINK_SETTINGS,
         HCI_CMD_MARVELL_SET_SCO_DATA_PATH, WRITE_PCM_SYNC_SETTINGS_SIZE,
         WRITE_PCM_LINK_SETTINGS_SIZE, SET_SCO_DATA_PATH_SIZE;
       match goal with
       | |- context [alloc t ?tr ?sz] =>
           destruct (alloc t tr sz) as [q|]; [|reflexivity]
       end;
       match goal with
       | |- context [xmit_cb t ?tr ?c ?q ?b ?k] =>
           exists (xmit_cb t tr c q b k);
           destruct (xmit_cb t tr c q b k); reflexivity
       end
     | ]).
  by destruct (evt_opcode buf =? _).
Qed.

(** X6: every command that any of the four functions hands to the transport
    is one of the five commands of the file with its fixed payload (the
    device address, reversed, for write-device-address). Its buffer has the
    header fields set, holds the opcode low byte first, the payload length
    and the payload, records as its length the number of bytes it holds,
    and was allocated in the same invocation with room for exactly the
    header and these bytes. *)
Theorem sent_commands_well_formed e s t :
  reachable s ->
  bt_vendor_cbacks s = Some t ->
  ready e s ->
  exists s' calls,
    exec e s = Some (tt, s') /\
    trace s' = trace s ++ calls /\
    forall opcode q b k r,
      Xmit opcode q b k r ∈ calls ->
      exists lo hi payload,
        (opcode, payload) ∈ wire_commands (vnd_local_bd_addr s) /\
        k = pipeline_of e /\
        event b = MSG_STACK_TO_HC_HCI_CMD /\
        offset b = 0 /\ layer_specific b = 0 /\
        data b = lo :: hi :: Z.of_nat (length payload) :: payload /\
        is_u8 lo /\ is_u8 hi /\ lo + 256 * hi = opcode /\
        len b = Z.of_nat (length (data b)) /\
        Alloc (BT_HC_HDR_SIZE + len b) (Some q) ∈ calls.
Proof.
  intros Hreach Hcb Hready. apply reachable_wf in Hreach.
  destruct (exec_sends e s t Hreach Hcb Hready)
    as (s' & calls & Hrun & Htr & _ & Hcalls).
  exists s', (prologue e ++ calls). split; [done|]. split; [done|].
  intros opcode q b k r Hin.
  apply elem_of_app in Hin as [Hin|Hin].
  { destruct e as [| |[x|]|[x|]]; simpl in Hin;
      repeat (apply elem_of_cons in Hin as [[=]|Hin]);
      by apply elem_of_nil in Hin. }
  destruct Hcalls as [(tr & cmd & payload & Hwire & ->)|[res ->]].
  2:{ apply elem_of_cons in Hin as [Hin|Hin]; [|by apply elem_of_nil in Hin].
      by destruct (pipeline_of e). }
  apply send_calls_xmit in Hin as (-> & -> & -> & Halloc).
  assert (is_u16 cmd /\ (length payload <= 8)%nat) as [Hcmd Hlen].
  { destruct Hreach as (Haddr & _).
    unfold wire_commands in Hwire.
    repeat (apply elem_of_cons in Hwire as [[= -> ->]|Hwire]);
      try (by apply elem_of_nil in Hwire);
      (split; [by vm_compute|]); simpl; rewrite ?length_reverse; lia. }
  assert (to_u16 (HCI_CMD_PREAMBLE_SIZE + Z.of_nat (length payload))
          = Z.of_nat (length (data (cmd_buf cmd (Z.of_nat (length payload))
                                      payload)))) as Hl.
  { simpl. rewrite to_u16_small; unfold is_u16, HCI_CMD_PREAMBLE_SIZE; lia. }
  exists (to_u8 cmd), (to_u8 (Z.shiftr cmd 8)), payload.
  repeat split; try done; try apply to_u8_is_u8.
  - by apply u16_split.
  - apply elem_of_app. right. cbn [len cmd_buf]. exact Halloc.
Qed.

(** ** Ownership of the buffers *)

Lemma disown_single q : disown q [q] = Some [].
Proof.
  simpl. by rewrite decide_True.
Qed.

(** X7: in every invocation, each buffer that is deallocated or handed to
    the transport is owned at that moment (the event buffer the dispatcher
    was given, or a block allocated in the invocation and not yet given
    up), and when the invocation returns nothing is owned any more: the
    event buffer and a rejected command buffer were deallocated once, an
    accepted command buffer went to the transport and was not deallocated.
    No buffer leaks, none is freed twice or used after it is given up. *)
Theorem buffers_owned_and_released e s t :
  reachable s ->
  bt_vendor_cbacks s = Some t ->
  ready e s ->
  exists s' calls,
    exec e s = Some (tt, s') /\
    trace s' = trace s ++ calls /\
    owned_after (handed e) calls = Some [].
Proof.
  intros Hreach Hcb Hready. apply reachable_wf in Hreach.
  destruct (exec_outcome e s t Hreach Hcb Hready)
    as (s' & calls & Hrun & Htr & Hout & _).
  exists s', (prologue e ++ calls). split; [done|]. split; [done|].
  assert (owned_after (handed e) (prologue e ++ calls) = owned_after [] calls)
    as ->.
  { destruct e as [| |p_mem|p_mem]; try done;
      destruct Hready as (p & buf & -> & _);
      cbn [handed prologue app owned_after];
      by rewrite disown_single. }
  destruct Hout as [size q op b|size q op b|size|r];
    destruct (pipeline_of e);
    repeat (cbn [owned_after report]; rewrite ?disown_single);
    done.
Qed.

(** ** The globals *)

(** X8: no invocation that returns changes the callback table, the device
    address or the four PCM and SCO payload templates, and only
    [hw_mrvl_config_start] writes [write_bd_address]. *)
Theorem globals_frame e s s' :
  exec e s = Some (tt, s') ->
  bt_vendor_cbacks s' = bt_vendor_cbacks s /\
  vnd_local_bd_addr s' = vnd_local_bd_addr s /\
  write_pcm_settings s' = write_pcm_settings s /\
  write_pcm_sync_settings s' = write_pcm_sync_settings s /\
  write_pcm_link_settings s' = write_pcm_link_settings s /\
  set_sco_data_path s' = set_sco_data_path s /\
  (e <> config_start -> write_bd_address s' = write_bd_address s).
Proof.
  intros Hrun.
  destruct e as [| |p_mem|p_mem]; simpl in Hrun.
  - apply hw_mrvl_config_start_globals in Hrun as (v & _ & Hg).
    destruct Hg as (? & ? & ? & ? & ? & ? & ?). by repeat split.
  - apply preserves_hw_mrvl_sco_config in Hrun.
    destruct Hrun as (? & ? & ? & ? & ? & ? & ?). by repeat split.
  - apply preserves_hw_mrvl_config_start_cb in Hrun.
    destruct Hrun as (? & ? & ? & ? & ? & ? & ?). by repeat split.
  - apply preserves_hw_mrvl_sco_config_cb in Hrun.
    destruct Hrun as (? & ? & ? & ? & ? & ? & ?). by repeat split.
Qed.

(** X9: two firmware configurations in a row: the second leaves
    [write_bd_address] as the first left it, and every command that either
    of them hands to the transport carries the same bytes, 22 FC 08 FE 06
    and the device address reversed. *)
Theorem config_start_twice s t :
  reachable s ->
  bt_vendor_cbacks s = Some t ->
  exists s1 s2 calls,
    hw_mrvl_config_start s = Some (tt, s1) /\
    hw_mrvl_config_start s1 = Some (tt, s2) /\
    trace s2 = trace s ++ calls /\
    write_bd_address s2 = write_bd_address s1 /\
    forall opcode q b k r,
      Xmit opcode q b k r ∈ calls ->
      opcode = HCI_CMD_MARVELL_WRITE_BD_ADDRESS /\
      data b = [0x22; 0xFC; 0x08; 0xFE; 0x06] ++ reverse (vnd_local_bd_addr s).
Proof.
  intros Hreach Hcb. apply reachable_wf in Hreach.
  destruct (hw_mrvl_config_start_calls s t Hcb Hreach)
    as (s1 & Hrun1 & Htr1 & Hg1).
  assert (wf_state s1) as Hwf1.
  { apply (same_globals_wf _ _ Hg1).
    destruct Hreach as (Haddr & Hw1 & Hw2 & Hw3 & Hw4 & a & Hw5 & Ha).
    repeat split; try done. cbn. eexists. split; [done|].
    by rewrite length_reverse. }
  assert (bt_vendor_cbacks s1 = Some t) as Hcb1 by by destruct Hg1 as (-> & _).
  assert (vnd_local_bd_addr s1 = vnd_local_bd_addr s) as Haddr1
    by by destruct Hg1 as (_ & -> & _).
  destruct (hw_mrvl_config_start_calls s1 t Hcb1 Hwf1)
    as (s2 & Hrun2 & Htr2 & Hg2).
  exists s1, s2. eexists. split; [done|]. split; [done|]. split.
  { rewrite Htr2, Htr1, <- app_assoc. done. }
  split.
  { destruct Hg2 as (_ & _ & _ & _ & _ & _ & ->).
    destruct Hg1 as (_ & _ & _ & _ & _ & _ & ->). simpl. by rewrite Haddr1. }
  intros opcode q b k r Hin. rewrite Haddr1 in Hin.
  apply elem_of_app in Hin as [Hin|Hin];
    apply send_calls_xmit in Hin as (-> & _ & -> & _); done.
Qed.

(** X10: a second [bt_vnd_mrvl_if_init] overrides the first completely:
    both calls return 0, and the state they leave is the one that the
    second call alone would leave: it holds the callback table and the
    first six address bytes of the second call, nothing of the first, and
    templates, memory and trace are as before. *)
Theorem bt_vnd_mrvl_if_init_overrides s p1 a1 p2 a2 :
  reachable s ->
  (6 <= length a1)%nat ->
  (6 <= length a2)%nat ->
  exists s',
    (bt_vnd_mrvl_if_init p1 a1 ;;; bt_vnd_mrvl_if_init p2 a2) s
      = Some (0, s') /\
    bt_vnd_mrvl_if_init p2 a2 s = Some (0, s') /\
    bt_vendor_cbacks s' = p2 /\
    vnd_local_bd_addr s' = take 6 a2 /\
    write_pcm_settings s' = write_pcm_settings s /\
    write_pcm_sync_settings s' = write_pcm_sync_settings s /\
    write_pcm_link_settings s' = write_pcm_link_settings s /\
    set_sco_data_path s' = set_sco_data_path s /\
    write_bd_address s' = write_bd_address s /\
    heap s' = heap s /\
    trace s' = trace s.
Proof.
  intros Hreach H1 H2. apply reachable_wf in Hreach as (Haddr & _).
  unfold bind. rewrite (bt_vnd_mrvl_if_init_eq p1 a1) by done.
  rewrite !(bt_vnd_mrvl_if_init_eq p2 a2) by done.
  unfold set_vnd_local_bd_addr, set_bt_vendor_cbacks. cbn.
  rewrite (drop_ge (vnd_local_bd_addr s)) by lia. rewrite !app_nil_r.
  rewrite drop_ge by (rewrite length_take; lia). rewrite app_nil_r.
  eexists. split; [reflexivity|]. split; [reflexivity|]. cbn.
  by split_and!.
Qed.

End Further.

(** * Further properties: the vendor interface *)

(** X11: [cmd_to_str] names exactly the opcodes that the two dispatchers
    know, every other opcode is an "unknown command", and no two opcodes
    share a name other than that one. *)
Theorem cmd_to_str_names :
  (forall c, cmd_to_str c = "unknown command" <->
             in_table cb_config_start c = false /\
             in_table cb_sco_config c = false) /\
  (forall a b, cmd_to_str a <> "unknown command" ->
               cmd_to_str a = cmd_to_str b -> a = b).
Proof.
  split.
  - intros c. unfold cmd_to_str, in_table.
    repeat
      match goal with
      | |- context [c =? ?y] => destruct (c =? y)
      end; simpl; split; try done; by intros [? ?].
  - intros a b. unfold cmd_to_str.
    repeat
      match goal with
      | |- context [?x =? ?y] => destruct (Z.eqb_spec x y); subst
      end; congruence.
Qed.

Section FurtherVendor.
Context `{bt_hci_bdroid} `{bt_vendor_lib}.

Lemma userial_open_loop_attempts o fuel : forall retry v,
  1 <= retry ->
  (Z.to_nat retry <= fuel)%nat ->
  exists v' fails,
    userial_open_loop o fuel retry v = Some v' /\
    core v' = core v /\
    Forall (fun r => r < 0) fails /\
    ((0 <= mchar_fd v' /\ (length fails < Z.to_nat retry)%nat /\
      sys_trace v' = sys_trace v ++ attempts fails
                     ++ [Sys_open mchar_port (mchar_fd v')]) \/
     (mchar_fd v' < 0 /\ length fails = Z.to_nat retry /\
      last fails = Some (mchar_fd v') /\
      sys_trace v' = sys_trace v ++ attempts fails)).
Proof.
  induction fuel as [|fuel IH]; intros retry v Hretry Hfuel; [lia|].
  cbn [userial_open_loop]. cbv zeta.
  set (r := os_open o (sys_trace v) mchar_port).
  cbn [mchar_fd set_mchar_fd].
  destruct (Z.ltb_spec r 0) as [Hr|Hr].
  - destruct (Z.eqb_spec (retry - 1) 0) as [Hlast|Hmore].
    + eexists _, [r]. split; [reflexivity|]. split; [reflexivity|].
      split; [by constructor|]. right. cbn.
      split; [done|]. split; [lia|]. split; [done|].
      by rewrite <- app_assoc.
    + destruct (IH (retry - 1)
                  (sys_log (Sys_usleep 200000)
                     (set_mchar_fd r (sys_log (Sys_open mchar_port r) v))))
        as (v' & fails & Hrun & Hcore & Hneg & Hcases); [lia..|].
      exists v', (r :: fails). split; [done|]. split; [done|].
      split; [by constructor|]. cbn in Hcases.
      destruct Hcases as [(Hfd & Hlen & Htr)|(Hfd & Hlen & Hlast & Htr)].
      * left. split; [done|]. split; [simpl; lia|].
        rewrite Htr, <- !app_assoc. done.
      * right. split; [done|]. split; [simpl; lia|]. split.
        -- destruct fails; [simpl in Hlen; lia|done].
        -- rewrite Htr, <- !app_assoc. done.
  - eexists _, []. split; [reflexivity|]. split; [reflexivity|].
    split; [done|].
    left. cbn. split; [lia|]. split; [lia|]. done.
Qed.

(** X12: [BT_VND_OP_USERIAL_OPEN] tries to open the port at most 20 times
    and sleeps 200 ms after each failure. It stops at the first success,
    returns 1 and stores the descriptor in [param[0]]; after 20 failures it
    returns -1 and stores the last negative result. It does not touch the
    sequencer, and it always terminates when [param] can be written. *)
Theorem userial_open_retries o param v :
  param <> [] ->
  exists ret v' fails,
    bt_vnd_mrvl_if_op o BT_VND_OP_USERIAL_OPEN param v
      = Some (ret, <[0%nat := mchar_fd v']> param, v') /\
    core v' = core v /\
    Forall (fun r => r < 0) fails /\
    ((ret = 1 /\ 0 <= mchar_fd v' /\ (length fails < 20)%nat /\
      sys_trace v' = sys_trace v ++ attempts fails
                     ++ [Sys_open mchar_port (mchar_fd v')]) \/
     (ret = -1 /\ mchar_fd v' < 0 /\ length fails = 20%nat /\
      last fails = Some (mchar_fd v') /\
      sys_trace v' = sys_trace v ++ attempts fails)).
Proof.
  intros Hparam.
  destruct (userial_open_loop_attempts o 20 20 v) as
    (v' & fails & Hrun & Hcore & Hneg & Hcases); [lia..|].
  cbn [bt_vnd_mrvl_if_op]. cbv zeta.
  change (Z.to_nat 20) with 20%nat in *. rewrite Hrun.
  rewrite store_byte_Some by (destruct param; [done|simpl; lia]).
  exists (if mchar_fd v' <? 0 then -1 else 1), v', fails.
  split; [done|]. split; [done|]. split; [done|].
  destruct Hcases as [(Hfd & Hlen & Htr)|(Hfd & Hlen & Hlast & Htr)].
  - left. by rewrite (proj2 (Z.ltb_ge _ _)) by done.
  - right. by rewrite (proj2 (Z.ltb_lt _ _)) by done.
Qed.

(** X13: the descriptor that a successful [BT_VND_OP_USERIAL_OPEN] reports
    in [param[0]] is the one that a following [BT_VND_OP_USERIAL_CLOSE]
    releases and closes; the close returns 0 when [close] succeeds and -1
    when it fails. *)
Theorem userial_open_then_close o param param' param2 v v1 :
  bt_vnd_mrvl_if_op o BT_VND_OP_USERIAL_OPEN param v = Some (1, param', v1) ->
  exists fd r v2,
    param' !! 0%nat = Some fd /\ 0 <= fd /\
    bt_vnd_mrvl_if_op o BT_VND_OP_USERIAL_CLOSE param2 v1
      = Some ((if r <? 0 then -1 else 0), param2, v2) /\
    sys_trace v2 = sys_trace v1 ++ closing fd r /\
    core v2 = core v1.
Proof.
  cbn [bt_vnd_mrvl_if_op]. cbv zeta.
  destruct (userial_open_loop _ _ _ _) as [v'|]; [|done].
  destruct (Z.ltb_spec (mchar_fd v') 0) as [Hfd|Hfd];
    destruct (store_byte param 0 (mchar_fd v')) as [param0|] eqn:Hst;
    try done; intros [= <- <-].
  eexists (mchar_fd v'), _, _.
  rewrite (proj2 (Z.ltb_ge _ _)) by done.
  split; [|split; [done|split; [reflexivity|split]]].
  - unfold store_byte in Hst.
    destruct (0 <? length param)%nat eqn:Hlen; [|done].
    injection Hst as <-. apply Nat.ltb_lt in Hlen.
    by apply list_lookup_insert_eq.
  - cbn. by rewrite <- !app_assoc.
  - done.
Qed.

(** X14: [BT_VND_OP_USERIAL_CLOSE] never invalidates [mchar_fd]: with the
    port open, a second close in a row makes the same three calls on the
    same descriptor again. With no descriptor it returns -1 and makes no
    call. *)
Theorem userial_close_twice o param v :
  (mchar_fd v < 0 ->
   bt_vnd_mrvl_if_op o BT_VND_OP_USERIAL_CLOSE param v = Some (-1, param, v)) /\
  (0 <= mchar_fd v ->
   exists r1 r2 v1 v2,
     bt_vnd_mrvl_if_op o BT_VND_OP_USERIAL_CLOSE param v
       = Some ((if r1 <? 0 then -1 else 0), param, v1) /\
     bt_vnd_mrvl_if_op o BT_VND_OP_USERIAL_CLOSE param v1
       = Some ((if r2 <? 0 then -1 else 0), param, v2) /\
     sys_trace v2 = sys_trace v ++ closing (mchar_fd v) r1
                    ++ closing (mchar_fd v) r2 /\
     mchar_fd v2 = mchar_fd v).
Proof.
  split; intros Hfd; cbn [bt_vnd_mrvl_if_op]; cbv zeta.
  - by rewrite (proj2 (Z.ltb_lt _ _)) by done.
  - rewrite (proj2 (Z.ltb_ge _ _)) by done. cbn [mchar_fd sys_log].
    eexists _, _, _, _. split; [reflexivity|].
    cbn [mchar_fd sys_log]. rewrite (proj2 (Z.ltb_ge _ _)) by done.
    split; [reflexivity|]. cbn. by rewrite <- !app_assoc.
Qed.

(** X15: [BT_VND_OP_FW_CFG] and [BT_VND_OP_SCO_CFG] run the pipeline entry
    and return 0 whether the first command went out or the pipeline already
    reported FAIL to its result callback; they make no call outside the
    sequencer and leave [param] and [mchar_fd] alone. *)
Theorem config_opcodes_return_zero o opcode e param v t :
  (opcode, e) ∈ [(BT_VND_OP_FW_CFG, config_start);
                 (BT_VND_OP_SCO_CFG, sco_config)] ->
  reachable (core v) ->
  bt_vendor_cbacks (core v) = Some t ->
  exists c calls,
    bt_vnd_mrvl_if_op o opcode param v = Some (0, param, set_core c v) /\
    exec e (core v) = Some (tt, c) /\
    trace c = trace (core v) ++ calls /\
    (result_calls calls = [] \/
     result_calls calls = [(pipeline_of e, BT_VND_OP_RESULT_FAIL)]).
Proof.
  intros Hop Hreach Hcb. apply reachable_wf in Hreach.
  assert (forall tr k cmd pl_len payload,
            result_calls (send_calls t tr k cmd pl_len payload) = [] \/
            result_calls (send_calls t tr k cmd pl_len payload)
              = [(k, BT_VND_OP_RESULT_FAIL)]) as Hres.
  { intros tr k cmd pl_len payload. unfold send_calls. cbv zeta.
    destruct (alloc t tr _); [destruct (xmit_cb t _ _ _ _ _)|];
      [by left| |]; right; by destruct k. }
  repeat (apply elem_of_cons in Hop as [[= -> ->]|Hop]);
    [| |by apply elem_of_nil in Hop].
  - destruct (hw_mrvl_config_start_calls (core v) t Hcb Hreach)
      as (c & Hrun & Htr & _).
    exists c. eexists. cbn [bt_vnd_mrvl_if_op exec]. rewrite Hrun.
    split; [done|]. split; [done|]. split; [exact Htr|]. apply Hres.
  - destruct (hw_mrvl_sco_config_calls (core v) t Hcb Hreach)
      as (c & Hrun & Htr & _).
    exists c. eexists. cbn [bt_vnd_mrvl_if_op exec]. rewrite Hrun.
    split; [done|]. split; [done|]. split; [exact Htr|]. apply Hres.
Qed.

(** X16: what [bt_vnd_mrvl_if_op] leaves alone, whenever it returns: only
    [BT_VND_OP_FW_CFG] and [BT_VND_OP_SCO_CFG] change the sequencer's state,
    only [BT_VND_OP_USERIAL_OPEN] changes [mchar_fd] and [param] and returns
    1, and [BT_VND_OP_GET_LPM_IDLE_TIMEOUT],
    [BT_VND_OP_LPM_WAKE_SET_STATE] and the opcodes the switch does not name
    change nothing at all; the last ones return -1. *)
Theorem bt_vnd_mrvl_if_op_frame o opcode param v ret param' v' :
  bt_vnd_mrvl_if_op o opcode param v = Some (ret, param', v') ->
  (ret = -1 \/ ret = 0 \/ ret = 1) /\
  (opcode <> BT_VND_OP_FW_CFG -> opcode <> BT_VND_OP_SCO_CFG ->
   core v' = core v) /\
  (opcode <> BT_VND_OP_USERIAL_OPEN ->
   mchar_fd v' = mchar_fd v /\ param' = param /\ ret <> 1) /\
  (opcode = BT_VND_OP_GET_LPM_IDLE_TIMEOUT \/
   opcode = BT_VND_OP_LPM_WAKE_SET_STATE -> v' = v /\ ret = 0) /\
  (forall n, opcode = BT_VND_OP_other n -> v' = v /\ ret = -1).
Proof.
  assert (forall b : bool, (if b then -1 else 1) = -1 \/
                           (if b then -1 else 1) = 0 \/
                           (if b then -1 else 1) = 1) as Hopen
    by (intros []; auto).
  assert (forall b : bool, (if b then -1 else 0) = -1 \/
                           (if b then -1 else 0) = 0 \/
                           (if b then -1 else 0) = 1) as Hclose
    by (intros []; auto).
  assert (forall b : bool, (if b then -1 else 0) <> 1) as Hclose1
    by (by intros []).
  destruct opcode; cbn [bt_vnd_mrvl_if_op]; cbv zeta.
  - destruct (param !! 0%nat) as [power_state|]; [|done].
    destruct (_ =? _); [|destruct (_ =? _)]; intros [= <- <- <-];
      split_and!; intros; split_and?; auto; try done; by intuition.
  - destruct (hw_mrvl_config_start (core v)) as [[? c]|]; [|done].
    intros [= <- <- <-].
    split_and!; intros; split_and?; auto; try done; by intuition.
  - destruct (hw_mrvl_sco_config (core v)) as [[? c]|]; [|done].
    intros [= <- <- <-].
    split_and!; intros; split_and?; auto; try done; by intuition.
  - destruct (userial_open_loop_attempts o 20 20 v)
      as (v1 & fails & Hrun & Hcore & _); [lia..|].
    change (Z.to_nat 20) with 20%nat. rewrite Hrun.
    destruct (store_byte param 0 (mchar_fd v1)); [|done].
    intros [= <- <- <-].
    split_and!; intros; split_and?; auto; try done; by intuition.
  - destruct (mchar_fd v <? 0); intros [= <- <- <-];
      split_and!; intros; split_and?; auto; try done; by intuition.
  - intros [= <- <- <-].
    split_and!; intros; split_and?; auto; try done; by intuition.
  - destruct (non_null _); intros [= <- <- <-];
      split_and!; intros; split_and?; auto; try done; by intuition.
  - intros [= <- <- <-].
    split_and!; intros; split_and?; auto; try done; by intuition.
  - intros [= <- <- <-].
    split_and!; intros; split_and?; auto; try done; by intuition.
Qed.

End FurtherVendor.

(** * Examples and counterexamples on concrete inputs *)

#[local] Existing Instance bdroid.

Ltac evt_ok :=
  split;
    [ vm_compute; lia
    | repeat (constructor; [vm_compute; split; congruence|]); constructor ].

Lemma reachable_booted : reachable booted.
Proof. by apply reach_start. Qed.

Lemma reachable_holding buf s : reachable s -> reachable (holding buf s).
Proof. intros Hs. by apply (reach_receive s 7%nat buf). Qed.

(** *** Runs of the two pipelines *)

Example config_start_sends :
  new_calls hw_mrvl_config_start booted =
    Some [Alloc 19 (Some 100%nat);
          Xmit 0xFC22 100%nat
            {| event := 0x2000; len := 11; offset := 0; layer_specific := 0;
               data := [0x22; 0xFC; 0x08;
                        0xFE; 0x06; 0x66; 0x55; 0x44; 0x33; 0x22; 0x11] |}
            cb_config_start true].
Proof. reflexivity. Qed.

Example config_start_out_of_memory :
  new_calls hw_mrvl_config_start
    (initial_state (Some exhausted) [0x11; 0x22; 0x33; 0x44; 0x55; 0x66]) =
    Some [Alloc 19 None; Fwcfg BT_VND_OP_RESULT_FAIL].
Proof. reflexivity. Qed.

Example sco_config_rejected :
  new_calls hw_mrvl_sco_config booted_rejecting =
    Some [Alloc 12 (Some 100%nat);
          Xmit 0xFC07 100%nat
            {| event := 0x2000; len := 4; offset := 0; layer_specific := 0;
               data := [0x07; 0xFC; 0x01; 0x02] |}
            cb_sco_config false;
          Dealloc 100%nat;
          Scocfg BT_VND_OP_RESULT_FAIL].
Proof. reflexivity. Qed.

Example config_start_without_table :
  hw_mrvl_config_start unregistered = None.
Proof. reflexivity. Qed.

Example sco_pipeline_runs :
  xmit_calls <$>
    new_calls
      (sco_pipeline
         [(1%nat, cmd_cmpl 0xFC07 0); (2%nat, cmd_cmpl 0xFC28 0);
          (3%nat, cmd_cmpl 0xFC29 0); (4%nat, cmd_cmpl 0xFC1D 0)]) booted =
    Some [(0xFC07, true); (0xFC28, true); (0xFC29, true); (0xFC1D, true)].
Proof. reflexivity. Qed.

(** The SCO dispatcher keeps no step: the event of set-SCO-data-path ends
    the pipeline with SUCCESS even when it is the first event to arrive. *)
Example sco_data_path_event_first :
  new_calls (receive 1%nat (cmd_cmpl 0xFC1D 0) ;;;
             hw_mrvl_sco_config_cb (Some 1%nat)) awaiting_pcm_settings =
    Some [Dealloc 1%nat; Scocfg BT_VND_OP_RESULT_SUCCESS].
Proof. reflexivity. Qed.

Example sco_event_out_of_order :
  new_calls (receive 1%nat (cmd_cmpl 0xFC28 0) ;;;
             hw_mrvl_sco_config_cb (Some 1%nat)) awaiting_pcm_settings =
    Some [Dealloc 1%nat;
          Alloc 13 (Some 103%nat);
          Xmit 0xFC29 103%nat
            {| event := 0x2000; len := 5; offset := 0; layer_specific := 0;
               data := [0x29; 0xFC; 0x02; 0x03; 0x00] |}
            cb_sco_config true].
Proof. reflexivity. Qed.

Example config_start_cb_without_table :
  new_calls (receive 7%nat (cmd_cmpl 0xFC22 0) ;;;
             hw_mrvl_config_start_cb (Some 7%nat)) orphaned = Some [].
Proof. reflexivity. Qed.

Example sco_config_cb_without_table :
  (receive 7%nat (cmd_cmpl 0xFC07 0) ;;;
   hw_mrvl_sco_config_cb (Some 7%nat)) unregistered = None.
Proof. reflexivity. Qed.

(** *** The theorems at concrete inputs *)

Lemma parse_evt_buf_fields_witness :
  exists lo hi st,
    data (cmd_cmpl 0xFC22 0x0C) !! 3%nat = Some lo /\
    data (cmd_cmpl 0xFC22 0x0C) !! 4%nat = Some hi /\
    data (cmd_cmpl 0xFC22 0x0C) !! 5%nat = Some st /\
    parse_evt_buf (Some 7%nat) (mkEvt 0 0)
        (holding (cmd_cmpl 0xFC22 0x0C) unregistered)
      = Some ({| cmd := lo + 256 * hi; cmd_ret_param := st |},
              holding (cmd_cmpl 0xFC22 0x0C) unregistered).
Proof.
  apply parse_evt_buf_fields.
  - reflexivity.
  - evt_ok.
Defined.

Lemma build_cmd_buf_result_witness :
  exists r s',
    build_cmd_buf 0xFC28 3 [0x03; 0x00; 0x03] booted = Some (r, s') /\
    (r = None <->
       bt_vendor_cbacks booted = None \/
       exists t, bt_vendor_cbacks booted = Some t /\
                 alloc t (trace booted) (BT_HC_HDR_SIZE + (3 + 3)) = None) /\
    (forall b, r = Some b ->
       exists buf lo hi,
         heap s' !! b = Some buf /\
         is_u8 lo /\ is_u8 hi /\ lo + 256 * hi = 0xFC28 /\
         data buf = lo :: hi :: 3 :: [0x03; 0x00; 0x03] /\
         len buf = 3 + 3).
Proof.
  apply build_cmd_buf_result.
  - unfold is_u16. lia.
  - lia.
  - reflexivity.
Defined.

Lemma write_bd_address_command_witness :
  exists s1 s2 calls,
    bt_vnd_mrvl_if_init (Some willing) [0xAA; 0xBB; 0xCC; 0xDD; 0xEE; 0xFF]
      booted = Some (0, s1) /\
    hw_mrvl_config_start s1 = Some (tt, s2) /\
    trace s2 = trace s1 ++ calls /\
    match alloc willing (trace s1) (BT_HC_HDR_SIZE + 11) with
    | None => calls = [Alloc (BT_HC_HDR_SIZE + 11) None;
                       Fwcfg BT_VND_OP_RESULT_FAIL]
    | Some p =>
        exists buf r rest,
          calls = Alloc (BT_HC_HDR_SIZE + 11) (Some p)
                  :: Xmit HCI_CMD_MARVELL_WRITE_BD_ADDRESS p buf
                       cb_config_start r :: rest /\
          len buf = 11 /\
          data buf = [0x22; 0xFC; 0x08] ++
                     [0xFE; 0x06; 0xFF; 0xEE; 0xDD; 0xCC; 0xBB; 0xAA]
    end.
Proof.
  apply (write_bd_address_command booted willing 0xAA 0xBB 0xCC 0xDD 0xEE 0xFF).
  apply reach_start. reflexivity.
Defined.

Lemma hw_mrvl_config_start_frame_witness :
  exists s',
    hw_mrvl_config_start booted = Some (tt, s') /\
    write_bd_address s'
      = take 2 (write_bd_address booted) ++ reverse (vnd_local_bd_addr booted) /\
    take 2 (write_bd_address s') = [0xFE; 0x06] /\
    length (write_bd_address s') = 8%nat /\
    write_pcm_settings s' = write_pcm_settings booted /\
    write_pcm_sync_settings s' = write_pcm_sync_settings booted /\
    write_pcm_link_settings s' = write_pcm_link_settings booted /\
    set_sco_data_path s' = set_sco_data_path booted.
Proof.
  apply (hw_mrvl_config_start_frame booted willing).
  - apply reach_start. reflexivity.
  - reflexivity.
Defined.

Lemma rejected_send_aborts_witness :
  exists s',
    exec (sco_config_cb (Some 7%nat))
      (holding (cmd_cmpl 0xFC07 0) booted_rejecting) = Some (tt, s') /\
    trace s' =
      [Dealloc 7%nat;
       Alloc 14 (Some 101%nat);
       Xmit 0xFC28 101%nat
         {| event := 0x2000; len := 6; offset := 0; layer_specific := 0;
            data := [0x28; 0xFC; 0x03; 0x03; 0x00; 0x03] |}
         cb_sco_config false;
       Dealloc 101%nat;
       Scocfg BT_VND_OP_RESULT_FAIL].
Proof.
  destruct (rejected_send_aborts (sco_config_cb (Some 7%nat))
              (holding (cmd_cmpl 0xFC07 0) booted_rejecting) rejecting)
    as (s' & calls & Hrun & Htr & Hsend & _).
  - apply (reach_receive booted_rejecting 7%nat (cmd_cmpl 0xFC07 0)).
    + apply reach_start. reflexivity.
    + reflexivity.
  - reflexivity.
  - exists 7%nat, (cmd_cmpl 0xFC07 0).
    split; [reflexivity|]. split; [reflexivity|]. evt_ok.
  - exists s'. split; [exact Hrun|]. rewrite Htr.
    rewrite (Hsend 0xFC28 3 [0x03; 0x00; 0x03] 101%nat);
      reflexivity.
Defined.

Lemma sco_pipeline_success_witness :
  fst <$> sco_pipeline
            [(1%nat, cmd_cmpl 0xFC07 0); (2%nat, cmd_cmpl 0xFC28 0);
             (3%nat, cmd_cmpl 0xFC29 0); (4%nat, cmd_cmpl 0xFC1D 0)] booted
    = Some 4%nat /\
  exists n s' calls,
    sco_pipeline
      [(1%nat, cmd_cmpl 0xFC07 0); (2%nat, cmd_cmpl 0xFC28 0);
       (3%nat, cmd_cmpl 0xFC29 0); (4%nat, cmd_cmpl 0xFC1D 0)] booted
      = Some (n, s') /\
    trace s' = trace booted ++ calls /\
    (n = 4%nat ->
     xmit_calls calls =
       [(HCI_CMD_MARVELL_WRITE_PCM_SETTINGS, true);
        (HCI_CMD_MARVELL_WRITE_PCM_SYNC_SETTINGS, true);
        (HCI_CMD_MARVELL_WRITE_PCM_LINK_SETTINGS, true);
        (HCI_CMD_MARVELL_SET_SCO_DATA_PATH, true)] /\
     scocfg_calls calls = [BT_VND_OP_RESULT_SUCCESS] /\
     fwcfg_calls calls = []) /\
    (never_refuses willing -> n = 4%nat).
Proof.
  split; [vm_compute; reflexivity|].
  apply (sco_pipeline_success booted willing).
  - apply reach_start. reflexivity.
  - reflexivity.
  - evt_ok.
  - reflexivity.
  - evt_ok.
  - reflexivity.
  - evt_ok.
  - reflexivity.
  - evt_ok.
  - reflexivity.
Defined.

Lemma config_start_cb_ignores_status_witness :
  evt_status (cmd_cmpl 0xFC22 0x00) <> evt_status (cmd_cmpl 0xFC22 0x0C) /\
  exists s1 s2 calls,
    (receive 7%nat (cmd_cmpl 0xFC22 0x00) ;;;
     hw_mrvl_config_start_cb (Some 7%nat)) booted = Some (tt, s1) /\
    (receive 7%nat (cmd_cmpl 0xFC22 0x0C) ;;;
     hw_mrvl_config_start_cb (Some 7%nat)) booted = Some (tt, s2) /\
    trace s1 = trace booted ++ calls /\
    trace s2 = trace booted ++ calls /\
    fwcfg_calls calls =
      match bt_vendor_cbacks booted with
      | Some _ =>
          [if evt_opcode (cmd_cmpl 0xFC22 0x00) =? HCI_CMD_MARVELL_WRITE_BD_ADDRESS
           then BT_VND_OP_RESULT_SUCCESS else BT_VND_OP_RESULT_FAIL]
      | None => []
      end.
Proof.
  split; [vm_compute; congruence|].
  apply (config_start_cb_ignores_status booted 7%nat).
  - evt_ok.
  - evt_ok.
  - reflexivity.
Defined.

Lemma unknown_opcode_fails_witness :
  exists s',
    dispatch cb_sco_config (Some 7%nat) (holding (cmd_cmpl 0x0C03 0) booted)
      = Some (tt, s') /\
    trace s' = trace (holding (cmd_cmpl 0x0C03 0) booted) ++
               [Dealloc 7%nat; report cb_sco_config BT_VND_OP_RESULT_FAIL].
Proof.
  apply (unknown_opcode_fails _ willing cb_sco_config 7%nat (cmd_cmpl 0x0C03 0)).
  - apply (reach_receive booted 7%nat (cmd_cmpl 0x0C03 0)).
    + apply reach_start. reflexivity.
    + reflexivity.
  - reflexivity.
  - reflexivity.
  - evt_ok.
  - reflexivity.
Defined.

Lemma event_buffer_freed_witness :
  exists s' calls,
    dispatch cb_sco_config (Some 7%nat) (holding (cmd_cmpl 0xFC07 0) booted)
      = Some (tt, s') /\
    trace s' = trace (holding (cmd_cmpl 0xFC07 0) booted) ++ calls /\
    head calls = Some (Dealloc 7%nat) /\
    frees_of 7%nat calls = 1%nat.
Proof.
  apply (event_buffer_freed _ willing cb_sco_config 7%nat (cmd_cmpl 0xFC07 0)).
  - apply (reach_receive booted 7%nat (cmd_cmpl 0xFC07 0)).
    + apply reach_start. reflexivity.
    + reflexivity.
  - reflexivity.
  - reflexivity.
  - evt_ok.
Defined.

Lemma invocation_sends_or_reports_witness :
  exists s' calls,
    exec config_start booted = Some (tt, s') /\
    trace s' = trace booted ++ calls /\
    ((exists opcode, xmit_calls calls = [(opcode, true)]) /\
     result_calls calls = []
     \/
     (forall opcode, (opcode, true) ∉ xmit_calls calls) /\
     exists r, result_calls calls = [(pipeline_of config_start, r)]).
Proof.
  apply (invocation_sends_or_reports config_start booted willing).
  - apply reach_start. reflexivity.
  - reflexivity.
  - exact I.
Defined.

(** *** The three claims that the code does not meet as worded *)

(** C5, counterexample: write-PCM-settings (0xFC07) is outstanding and the
    completion event of write-PCM-sync-settings (0xFC28) arrives; the
    dispatcher reports nothing and sends write-PCM-link-settings (0xFC29). *)
Lemma unexpected_opcode_fails_refuted : ~ unexpected_opcode_fails.
Proof.
  intros Hclaim.
  assert (reachable awaiting_pcm_settings) as Hreach.
  { apply (reach_exec booted sco_config); [apply reachable_booted|].
    vm_compute. reflexivity. }
  destruct (Hclaim awaiting_pcm_settings willing cb_sco_config
              HCI_CMD_MARVELL_WRITE_PCM_SETTINGS 1%nat (cmd_cmpl 0xFC28 0))
    as (s' & calls & Hrun & Htr & _ & Hsent).
  - exact Hreach.
  - vm_compute. reflexivity.
  - vm_compute. reflexivity.
  - evt_ok.
  - vm_compute. congruence.
  - set (sent := fun r : unit * state =>
             xmit_calls (drop (length (trace awaiting_pcm_settings))
                           (trace (snd r)))).
    assert (option_map sent
              ((receive 1%nat (cmd_cmpl 0xFC28 0) ;;;
                dispatch cb_sco_config (Some 1%nat)) awaiting_pcm_settings)
            = Some [(HCI_CMD_MARVELL_WRITE_PCM_LINK_SETTINGS, true)]) as Hsim
      by (vm_compute; reflexivity).
    pose proof (eq_trans (eq_sym Hsim) (f_equal (option_map sent) Hrun)) as E.
    subst sent. simpl in E.
    rewrite Htr, drop_app_length, Hsent in E. discriminate E.
Qed.

Lemma reachable_orphaned : reachable orphaned.
Proof.
  set (s1 := match hw_mrvl_config_start booted with
             | Some (_, s) => s
             | None => booted
             end).
  apply (reach_init s1 None [0x11; 0x22; 0x33; 0x44; 0x55; 0x66] 0).
  - apply (reach_exec booted config_start); [apply reachable_booted|].
    vm_compute. reflexivity.
  - vm_compute. reflexivity.
Qed.

(** C6, counterexample: write-device-address is outstanding and the callback
    table has been replaced by null; handed the completion event,
    [hw_mrvl_config_start_cb] returns without deallocating the buffer. *)
Lemma event_buffer_always_freed_refuted : ~ event_buffer_always_freed.
Proof.
  intros Hclaim.
  set (s := holding (cmd_cmpl 0xFC22 0) orphaned).
  destruct (hw_mrvl_config_start_cb_calls s 7%nat (cmd_cmpl 0xFC22 0))
    as (s' & Hrun & Htr & _); [apply lookup_insert_eq | evt_ok |].
  destruct (Hclaim s cb_config_start HCI_CMD_MARVELL_WRITE_BD_ADDRESS
              7%nat (cmd_cmpl 0xFC22 0) s')
    as (calls & Htr' & Hfree).
  - apply reachable_holding, reachable_orphaned.
  - vm_compute. reflexivity.
  - apply lookup_insert_eq.
  - evt_ok.
  - exact Hrun.
  - change (bt_vendor_cbacks s) with (@None bt_vendor_callbacks_t) in Htr.
    simpl in Htr. rewrite app_nil_r in Htr.
    assert (calls = []) as ->.
    { apply (app_inv_head (trace s)). by rewrite app_nil_r, <- Htr'. } discriminate Hfree.
Qed.

(** C7, counterexample: in the same situation, with the completion event of
    another opcode as well, [hw_mrvl_config_start_cb] returns having neither
    sent a command nor invoked a result callback. *)
Lemma every_invocation_reports_refuted : ~ every_invocation_reports.
Proof.
  intros Hclaim.
  set (s := holding (cmd_cmpl 0x0C03 0) orphaned).
  destruct (hw_mrvl_config_start_cb_calls s 7%nat (cmd_cmpl 0x0C03 0))
    as (s' & Hrun & Htr & _); [apply lookup_insert_eq | evt_ok |].
  destruct (Hclaim s (config_start_cb (Some 7%nat)) s')
    as (calls & Htr' & Hcalls).
  - apply reachable_holding, reachable_orphaned.
  - exact Hrun.
  - change (bt_vendor_cbacks s) with (@None bt_vendor_callbacks_t) in Htr.
    simpl in Htr. rewrite app_nil_r in Htr.
    assert (calls = []) as ->.
    { apply (app_inv_head (trace s)). by rewrite app_nil_r, <- Htr'. }
    destruct Hcalls as [[opcode Hin]|[r Hr]].
    + by apply elem_of_nil in Hin.
    + discriminate Hr.
Qed.

(** *** Further examples and the further theorems at concrete inputs *)

#[local] Existing Instance vendor_lib.

Example userial_open_third_attempt :
  bt_vnd_mrvl_if_op (opens_after 2) BT_VND_OP_USERIAL_OPEN [0]
    (vendor_start booted)
  = Some (1, [5],
          {| core := booted; mchar_fd := 5;
             sys_trace := [Sys_open mchar_port (-1); Sys_usleep 200000;
                           Sys_open mchar_port (-1); Sys_usleep 200000;
                           Sys_open mchar_port 5] |}).
Proof. reflexivity. Qed.

Example userial_open_gives_up :
  (fun r => (fst (fst r), length (open_results (sys_trace (snd r))),
             length (usleep_calls (sys_trace (snd r))))) <$>
    bt_vnd_mrvl_if_op (opens_after 25) BT_VND_OP_USERIAL_OPEN [0]
      (vendor_start booted)
  = Some (-1, 20%nat, 20%nat).
Proof. reflexivity. Qed.

Example userial_open_null_param :
  bt_vnd_mrvl_if_op (opens_after 0) BT_VND_OP_USERIAL_OPEN []
    (vendor_start booted) = None.
Proof. reflexivity. Qed.

Example power_on :
  bt_vnd_mrvl_if_op (opens_after 0) BT_VND_OP_POWER_CTRL [1]
    (vendor_start booted)
  = Some (0, [1], sys_log Bluetooth_enable (vendor_start booted)).
Proof. reflexivity. Qed.

Lemma uint16_stream_round_trip_witness :
  STREAM_TO_UINT16 (UINT16_TO_STREAM [0xAA] 0xFC22 ++ [0xBB]) (length [0xAA])
    = Some (0xFC22, length (UINT16_TO_STREAM [0xAA] 0xFC22)).
Proof.
  apply (uint16_stream_round_trip [0xAA] [0xBB] 0xFC22).
  unfold is_u16. lia.
Defined.

Lemma without_callback_table_witness :
  heap (holding (cmd_cmpl 0xFC22 0) unregistered) !! 7%nat
    = Some (cmd_cmpl 0xFC22 0) /\
  hw_mrvl_config_start (holding (cmd_cmpl 0xFC22 0) unregistered) = None /\
  hw_mrvl_sco_config (holding (cmd_cmpl 0xFC22 0) unregistered) = None /\
  (forall p_mem,
     hw_mrvl_sco_config_cb p_mem (holding (cmd_cmpl 0xFC22 0) unregistered)
       = None) /\
  (forall p buf,
     heap (holding (cmd_cmpl 0xFC22 0) unregistered) !! p = Some buf ->
     wf_evt buf ->
     hw_mrvl_config_start_cb (Some p)
       (holding (cmd_cmpl 0xFC22 0) unregistered)
       = Some (tt, holding (cmd_cmpl 0xFC22 0) unregistered)).
Proof.
  split; [reflexivity|].
  apply (without_callback_table (holding (cmd_cmpl 0xFC22 0) unregistered)).
  reflexivity.
Defined.

Lemma dispatch_reads_opcode_only_witness :
  new_calls (receive 7%nat (cmd_cmpl 0xFC07 0) ;;;
             dispatch cb_sco_config (Some 7%nat)) awaiting_pcm_settings
    = new_calls (receive 7%nat odd_event ;;;
                 dispatch cb_sco_config (Some 7%nat)) awaiting_pcm_settings.
Proof.
  apply (dispatch_reads_opcode_only cb_sco_config awaiting_pcm_settings 7%nat
           (cmd_cmpl 0xFC07 0) odd_event).
  - evt_ok.
  - evt_ok.
  - reflexivity.
Defined.

Lemma sco_config_cb_follows_table_witness :
  exists s' calls,
    hw_mrvl_sco_config_cb (Some 7%nat) (holding (cmd_cmpl 0xFC28 0) booted)
      = Some (tt, s') /\
    trace s' = trace (holding (cmd_cmpl 0xFC28 0) booted)
               ++ Dealloc 7%nat :: calls /\
    match next_command (evt_opcode (cmd_cmpl 0xFC28 0)) with
    | Some (opcode, payload) =>
        let n := Z.of_nat (length payload) in
        let size := BT_HC_HDR_SIZE + (3 + n) in
        match alloc willing
                (trace (holding (cmd_cmpl 0xFC28 0) booted) ++ [Dealloc 7%nat])
                size with
        | None => calls = [Alloc size None; Scocfg BT_VND_OP_RESULT_FAIL]
        | Some q =>
            exists r,
              calls =
                Alloc size (Some q)
                :: Xmit opcode q
                     {| event := MSG_STACK_TO_HC_HCI_CMD;
                        len := 3 + n;
                        offset := 0;
                        layer_specific := 0;
                        data := to_u8 opcode :: to_u8 (Z.shiftr opcode 8)
                                :: n :: payload |}
                     cb_sco_config r
                :: (if r then []
                    else [Dealloc q; Scocfg BT_VND_OP_RESULT_FAIL])
        end
    | None =>
        calls = [Scocfg (if evt_opcode (cmd_cmpl 0xFC28 0)
                              =? HCI_CMD_MARVELL_SET_SCO_DATA_PATH
                         then BT_VND_OP_RESULT_SUCCESS
                         else BT_VND_OP_RESULT_FAIL)]
    end.
Proof.
  apply (sco_config_cb_follows_table _ willing 7%nat (cmd_cmpl 0xFC28 0)).
  - apply (reach_receive booted 7%nat (cmd_cmpl 0xFC28 0)).
    + apply reach_start. reflexivity.
    + reflexivity.
  - reflexivity.
  - reflexivity.
  - evt_ok.
Defined.

Lemma sent_commands_well_formed_witness :
  exists s' calls,
    exec (sco_config_cb (Some 7%nat)) (holding (cmd_cmpl 0xFC07 0) booted)
      = Some (tt, s') /\
    trace s' = trace (holding (cmd_cmpl 0xFC07 0) booted) ++ calls /\
    forall opcode q b k r,
      Xmit opcode q b k r ∈ calls ->
      exists lo hi payload,
        (opcode, payload)
          ∈ wire_commands (vnd_local_bd_addr (holding (cmd_cmpl 0xFC07 0) booted)) /\
        k = pipeline_of (sco_config_cb (Some 7%nat)) /\
        event b = MSG_STACK_TO_HC_HCI_CMD /\
        offset b = 0 /\ layer_specific b = 0 /\
        data b = lo :: hi :: Z.of_nat (length payload) :: payload /\
        is_u8 lo /\ is_u8 hi /\ lo + 256 * hi = opcode /\
        len b = Z.of_nat (length (data b)) /\
        Alloc (BT_HC_HDR_SIZE + len b) (Some q) ∈ calls.
Proof.
  apply (sent_commands_well_formed (sco_config_cb (Some 7%nat)) _ willing).
  - apply (reach_receive booted 7%nat (cmd_cmpl 0xFC07 0)).
    + apply reach_start. reflexivity.
    + reflexivity.
  - reflexivity.
  - exists 7%nat, (cmd_cmpl 0xFC07 0).
    split; [reflexivity|]. split; [reflexivity|]. evt_ok.
Defined.

Lemma buffers_owned_and_released_witness :
  exists s' calls,
    exec (sco_config_cb (Some 7%nat))
      (holding (cmd_cmpl 0xFC07 0) booted_rejecting) = Some (tt, s') /\
    trace s' = trace (holding (cmd_cmpl 0xFC07 0) booted_rejecting) ++ calls /\
    owned_after (handed (sco_config_cb (Some 7%nat))) calls = Some [].
Proof.
  apply (buffers_owned_and_released (sco_config_cb (Some 7%nat)) _ rejecting).
  - apply (reach_receive booted_rejecting 7%nat (cmd_cmpl 0xFC07 0)).
    + apply reach_start. reflexivity.
    + reflexivity.
  - reflexivity.
  - exists 7%nat, (cmd_cmpl 0xFC07 0).
    split; [reflexivity|]. split; [reflexivity|]. evt_ok.
Defined.

Lemma globals_frame_witness :
  bt_vendor_cbacks awaiting_pcm_settings = bt_vendor_cbacks booted /\
  vnd_local_bd_addr awaiting_pcm_settings = vnd_local_bd_addr booted /\
  write_pcm_settings awaiting_pcm_settings = write_pcm_settings booted /\
  write_pcm_sync_settings awaiting_pcm_settings
    = write_pcm_sync_settings booted /\
  write_pcm_link_settings awaiting_pcm_settings
    = write_pcm_link_settings booted /\
  set_sco_data_path awaiting_pcm_settings = set_sco_data_path booted /\
  (sco_config <> config_start ->
   write_bd_address awaiting_pcm_settings = write_bd_address booted).
Proof.
  apply (globals_frame sco_config booted awaiting_pcm_settings).
  vm_compute. reflexivity.
Defined.

Lemma config_start_twice_witness :
  exists s1 s2 calls,
    hw_mrvl_config_start booted = Some (tt, s1) /\
    hw_mrvl_config_start s1 = Some (tt, s2) /\
    trace s2 = trace booted ++ calls /\
    write_bd_address s2 = write_bd_address s1 /\
    forall opcode q b k r,
      Xmit opcode q b k r ∈ calls ->
      opcode = HCI_CMD_MARVELL_WRITE_BD_ADDRESS /\
      data b = [0x22; 0xFC; 0x08; 0xFE; 0x06]
               ++ reverse (vnd_local_bd_addr booted).
Proof.
  apply (config_start_twice booted willing).
  - apply reach_start. reflexivity.
  - reflexivity.
Defined.

Lemma bt_vnd_mrvl_if_init_overrides_witness :
  exists s',
    (bt_vnd_mrvl_if_init None [1; 2; 3; 4; 5; 6] ;;;
     bt_vnd_mrvl_if_init (Some willing) [7; 8; 9; 10; 11; 12; 13]) booted
      = Some (0, s') /\
    bt_vnd_mrvl_if_init (Some willing) [7; 8; 9; 10; 11; 12; 13] booted
      = Some (0, s') /\
    bt_vendor_cbacks s' = Some willing /\
    vnd_local_bd_addr s' = take 6 [7; 8; 9; 10; 11; 12; 13] /\
    write_pcm_settings s' = write_pcm_settings booted /\
    write_pcm_sync_settings s' = write_pcm_sync_settings booted /\
    write_pcm_link_settings s' = write_pcm_link_settings booted /\
    set_sco_data_path s' = set_sco_data_path booted /\
    write_bd_address s' = write_bd_address booted /\
    heap s' = heap booted /\
    trace s' = trace booted.
Proof.
  apply (bt_vnd_mrvl_if_init_overrides booted).
  - apply reach_start. reflexivity.
  - simpl. lia.
  - simpl. lia.
Defined.

Lemma userial_open_retries_witness :
  exists ret v' fails,
    bt_vnd_mrvl_if_op (opens_after 2) BT_VND_OP_USERIAL_OPEN [0]
        (vendor_start booted)
      = Some (ret, <[0%nat := mchar_fd v']> [0], v') /\
    core v' = core (vendor_start booted) /\
    Forall (fun r => r < 0) fails /\
    ((ret = 1 /\ 0 <= mchar_fd v' /\ (length fails < 20)%nat /\
      sys_trace v' = sys_trace (vendor_start booted) ++ attempts fails
                     ++ [Sys_open mchar_port (mchar_fd v')]) \/
     (ret = -1 /\ mchar_fd v' < 0 /\ length fails = 20%nat /\
      last fails = Some (mchar_fd v') /\
      sys_trace v' = sys_trace (vendor_start booted) ++ attempts fails)).
Proof.
  apply (userial_open_retries (opens_after 2) [0] (vendor_start booted)).
  discriminate.
Defined.

Lemma userial_open_then_close_witness :
  exists fd r v2,
    [5] !! 0%nat = Some fd /\ 0 <= fd /\
    bt_vnd_mrvl_if_op (opens_after 2) BT_VND_OP_USERIAL_CLOSE [] opened
      = Some ((if r <? 0 then -1 else 0), [], v2) /\
    sys_trace v2 = sys_trace opened ++ closing fd r /\
    core v2 = core opened.
Proof.
  apply (userial_open_then_close (opens_after 2) [0] [5] []
           (vendor_start booted) opened).
  vm_compute. reflexivity.
Defined.

Lemma userial_close_twice_witness :
  0 <= mchar_fd opened /\
  (mchar_fd opened < 0 ->
   bt_vnd_mrvl_if_op (opens_after 2) BT_VND_OP_USERIAL_CLOSE [] opened
     = Some (-1, [], opened)) /\
  (0 <= mchar_fd opened ->
   exists r1 r2 v1 v2,
     bt_vnd_mrvl_if_op (opens_after 2) BT_VND_OP_USERIAL_CLOSE [] opened
       = Some ((if r1 <? 0 then -1 else 0), [], v1) /\
     bt_vnd_mrvl_if_op (opens_after 2) BT_VND_OP_USERIAL_CLOSE [] v1
       = Some ((if r2 <? 0 then -1 else 0), [], v2) /\
     sys_trace v2 = sys_trace opened ++ closing (mchar_fd opened) r1
                    ++ closing (mchar_fd opened) r2 /\
     mchar_fd v2 = mchar_fd opened).
Proof.
  split; [vm_compute; congruence|].
  apply (userial_close_twice (opens_after 2) [] opened).
Defined.

Lemma config_opcodes_return_zero_witness :
  exists c calls,
    bt_vnd_mrvl_if_op (opens_after 0) BT_VND_OP_SCO_CFG []
        (vendor_start booted_rejecting)
      = Some (0, [], set_core c (vendor_start booted_rejecting)) /\
    exec sco_config (core (vendor_start booted_rejecting)) = Some (tt, c) /\
    trace c = trace (core (vendor_start booted_rejecting)) ++ calls /\
    (result_calls calls = [] \/
     result_calls calls = [(pipeline_of sco_config, BT_VND_OP_RESULT_FAIL)]).
Proof.
  apply (config_opcodes_return_zero (opens_after 0) BT_VND_OP_SCO_CFG
           sco_config [] (vendor_start booted_rejecting) rejecting).
  - apply list_elem_of_further, list_elem_of_here.
  - apply reach_start. reflexivity.
  - reflexivity.
Defined.

Lemma bt_vnd_mrvl_if_op_frame_witness :
  (1 = -1 \/ 1 = 0 \/ 1 = 1) /\
  (BT_VND_OP_USERIAL_OPEN <> BT_VND_OP_FW_CFG ->
   BT_VND_OP_USERIAL_OPEN <> BT_VND_OP_SCO_CFG ->
   core opened = core (vendor_start booted)) /\
  (BT_VND_OP_USERIAL_OPEN <> BT_VND_OP_USERIAL_OPEN ->
   mchar_fd opened = mchar_fd (vendor_start booted) /\ [5] = [0] /\ 1 <> 1) /\
  (BT_VND_OP_USERIAL_OPEN = BT_VND_OP_GET_LPM_IDLE_TIMEOUT \/
   BT_VND_OP_USERIAL_OPEN = BT_VND_OP_LPM_WAKE_SET_STATE ->
   opened = vendor_start booted /\ 1 = 0) /\
  (forall n, BT_VND_OP_USERIAL_OPEN = BT_VND_OP_other n ->
             opened = vendor_start booted /\ 1 = -1).
Proof.
  apply (bt_vnd_mrvl_if_op_frame (opens_after 2) BT_VND_OP_USERIAL_OPEN [0]
           (vendor_start booted) 1 [5] opened).
  vm_compute. reflexivity.
Defined.
